(** * experitorch: component resolver and experiment lifecycle

    A shallow embedding of [experitorch/auto_loading.py] and
    [experitorch/experiment.py].

    - Python exceptions are the constructors of [exn]; a computation that may
      raise and that may touch the file system or the log is a function
      [world -> world * result A] (the monad [M]).
    - The file system is a finite map from path strings, as the program
      spells them, to nodes (a directory, or a regular file with its bytes);
      two spellings of one location are not identified.  An entry can be
      made only in a directory that exists; an empty dirname stands for the
      current directory.
    - The collaborators the program calls but does not define (the import
      system, the clock, [str()] of a non-string value, the YAML and torch
      serializers, the pydantic model behind [ExperimentConfig]) are the
      fields of a [host]; no law is assumed of them in the definitions, and
      a property that needs one states it as a hypothesis.
    - A logger call is recorded as a typed [log_event], one constructor per
      call site of the source.
    - [str.lower] is modelled on ASCII letters; strings are byte strings.
    - The frozen dataclasses follow [dataclasses]: a frozen class gets a
      [__setattr__] that raises [FrozenInstanceError], and a hand-written
      [__init__] is kept as it is. *)

From Stdlib Require Import String Ascii List ZArith Bool Lia.
From stdpp Require Import base gmap strings list.

Set Warnings "-register-all".
Local Open Scope string_scope.
Local Open Scope list_scope.

(** ** Exceptions and results *)

Inductive exn : Set :=
| ModuleNotFoundError
| ImportError
| AttributeError
| KeyError
| IndexError
| ValueError
| TypeError
| FileExistsError
| FileNotFoundError
| IsADirectoryError
| NotADirectoryError
| FrozenInstanceError
| ValidationError
| YAMLError
| UnpicklingError
| RecursionError.

#[global] Instance exn_eq_dec : EqDecision exn.
Proof. solve_decision. Defined.

Inductive result (A : Type) : Type :=
| Ok (a : A)
| Raise (e : exn).

Arguments Ok {A} a.
Arguments Raise {A} e.

Definition is_ok {A} (r : result A) : bool :=
  match r with Ok _ => true | Raise _ => false end.

(** ** Python values: configurations and persisted blobs *)

Inductive pyval : Type :=
| PNone
| PBool (b : bool)
| PInt (n : Z)
| PStr (s : string)
| PList (l : list pyval)
| PDict (d : list (string * pyval)).

(** A [dict] with string keys, in insertion order. *)
Abbreviation pydict := (list (string * pyval)).

Fixpoint dict_get (d : pydict) (k : string) : option pyval :=
  match d with
  | [] => None
  | (k', v) :: d' => if String.eqb k' k then Some v else dict_get d' k
  end.

(** ** Strings *)

(** [str.lower] on one ASCII character. *)
Definition lower_ascii (c : ascii) : ascii :=
  let n := nat_of_ascii c in
  if (65 <=? n)%nat && (n <=? 90)%nat then ascii_of_nat (n + 32) else c.

(** [str.lower] on ASCII text, character by character; a character outside
    ASCII is left as it is, so properties that lower-case a concatenation
    are stated for [is_ascii] strings. *)
Fixpoint lower (s : string) : string :=
  match s with
  | EmptyString => EmptyString
  | String c s' => String (lower_ascii c) (lower s')
  end.

(** [sep.join(parts)]. *)
Fixpoint str_join (sep : string) (parts : list string) : string :=
  match parts with
  | [] => ""
  | [p] => p
  | p :: ps => p +:+ sep +:+ str_join sep ps
  end.

(** [s.startswith(p)] and [s.endswith(p)]. *)
Definition startswith (s p : string) : bool := String.prefix p s.
Definition endswith (s p : string) : bool :=
  String.prefix (String.rev p) (String.rev s).

(** ** Classes, module members and modules *)

(** What the resolver can observe of a module member: for a class, its
    [__bases__] chain; for anything, the module [inspect.getmodule] gives. *)
Inductive pyobj : Type :=
| PyClass (qualname : string) (home : option string) (bases : list pyobj)
| PyValue (ident : string) (home : option string).

Definition inspect_getmodule (o : pyobj) : option string :=
  match o with
  | PyClass _ h _ => h
  | PyValue _ h => h
  end.

(** [torch.nn.Module], recognised by its qualified name. *)
Definition nn_Module_qualname : string := "torch.nn.modules.module.Module".

Definition is_nn_Module (o : pyobj) : bool :=
  match o with
  | PyClass q _ _ => String.eqb q nn_Module_qualname
  | PyValue _ _ => false
  end.

(** An imported module: its name in [sys.modules] and the pairs
    [inspect.getmembers] returns for it. *)
Record pymodule : Type := {
  mod_name : string;
  mod_members : list (string * pyobj)
}.

(** ** The host: collaborators outside the repository *)

Record host : Type := {
  (** [importlib.import_module]: the module found or the exception raised;
      what running the module's own code does besides is not recorded *)
  import_module : string -> result pymodule;
  (** [time.strftime("%Y-%m-%d-%H-%M-%S", time.localtime())] *)
  strftime_localtime : string;
  (** [str()] of a value that is not a [str] *)
  str_of : pyval -> string;
  (** [yaml.dump] and [yaml.load(_, Loader=yaml.SafeLoader)] *)
  yaml_dump : pydict -> string;
  yaml_safe_load : string -> result pyval;
  (** [torch.save] and [torch.load] on the bytes of a file *)
  torch_save : pyval -> string;
  torch_load : string -> result pyval;
  (** [ExperimentConfig] applied to the unpacked document, followed by
      [.dict(by_alias=True)]: what pydantic and [dataclasses] make of the
      class declaration *)
  ExperimentConfig_dict : pyval -> result pydict
}.

(** The text an f-string substitutes for a value. *)
Definition format_value (h : host) (v : pyval) : string :=
  match v with
  | PStr s => s
  | _ => str_of h v
  end.

(** ** The world: file system and log *)

Inductive node : Type :=
| Dir
| File (data : string).

(** One constructor per logger call of the source. *)
Inductive log_event : Type :=
| ErrCannotImport (model_type : string)
| ErrNoComponentModule (model_type component_type : string)
| ErrNoSuchComponent (component_name : string)
| WarnExternComponent (component_name : string)
| WarnNotPytorchModule (model_type : string)
| InfoLoadingExperiment (path : string)
| InfoCreatingExperiment (config : pydict)
| ErrPathExists (path : string)
| ErrElementNotFound (element_name : string).

(** Entries are keyed by the path as the program spells it: [a/./b] and
    [a/b] are two keys.  Properties that tell two entries apart are stated
    for names that are plain components. *)
Record world : Type := {
  files : gmap string node;
  log : list log_event
}.

(** ** The monad of effectful code *)

Definition M (A : Type) : Type := world -> world * result A.

Definition ret {A} (a : A) : M A := fun w => (w, Ok a).

Definition raise {A} (e : exn) : M A := fun w => (w, Raise e).

Definition bind {A B} (c : M A) (k : A -> M B) : M B :=
  fun w =>
    match c w with
    | (w', Ok a) => k a w'
    | (w', Raise e) => (w', Raise e)
    end.

Notation "x <- c ;; k" := (bind c (fun x => k))
  (at level 20, c at level 99, k at level 200, right associativity).
Notation "'run' c ;; k" := (bind c (fun _ => k))
  (at level 20, c at level 99, k at level 200, right associativity).

Definition lift {A} (r : result A) : M A := fun w => (w, r).

Definition emit (ev : log_event) : M unit :=
  fun w => ({| files := files w; log := log w ++ [ev] |}, Ok tt).

(** [try: c  except E as e: handler e], where [E] is the class [catch]
    accepts. *)
Definition try_except {A} (c : M A) (catch : exn -> bool) (handler : exn -> M A) : M A :=
  fun w =>
    match c w with
    | (w', Raise e) => if catch e then handler e w' else (w', Raise e)
    | r => r
    end.

Definition result_of {A} (c : M A) (w : world) : result A := snd (c w).
Definition world_after {A} (c : M A) (w : world) : world := fst (c w).

(** ** Lists the Python way *)

(** [x in l] for a list of strings. *)
Definition str_in (x : string) (l : list string) : bool :=
  existsb (String.eqb x) l.

(** [l.index(x)]: the first position of [x], [ValueError] when absent. *)
Fixpoint list_index (x : string) (l : list string) : result nat :=
  match l with
  | [] => Raise ValueError
  | y :: l' =>
      if String.eqb y x then Ok 0
      else match list_index x l' with
           | Ok i => Ok (S i)
           | Raise e => Raise e
           end
  end.

(** [l[i]] *)
Definition list_getitem {A} (l : list A) (i : nat) : result A :=
  match nth_error l i with
  | Some a => Ok a
  | None => Raise IndexError
  end.

(** [getattr(module, name)] on the members of a module. *)
Fixpoint module_getattr (members : list (string * pyobj)) (name : string) : result pyobj :=
  match members with
  | [] => Raise AttributeError
  | (n, o) :: members' =>
      if String.eqb n name then Ok o else module_getattr members' name
  end.

(** ** auto_loading.py *)

Definition is_ModuleNotFoundError (e : exn) : bool :=
  match e with ModuleNotFoundError => true | _ => false end.

Definition is_AttributeError (e : exn) : bool :=
  match e with AttributeError => true | _ => false end.

Definition get_model_component_class (h : host)
    (project model_type component_type component_name : string) : M pyobj :=
  let model_type := lower model_type in
  let component_type := lower component_type in
  let component_name := lower component_name in
  let model_module_path := project +:+ ".models." +:+ model_type in
  let component_module_path :=
    project +:+ ".models." +:+ model_type +:+ "." +:+ component_type in
  _ <- try_except (lift (import_module h model_module_path))
         is_ModuleNotFoundError
         (fun _ => run emit (ErrCannotImport model_type) ;;
                   raise ModuleNotFoundError) ;;
  component_module <-
       try_except (lift (import_module h component_module_path))
         is_ModuleNotFoundError
         (fun _ => run emit (ErrNoComponentModule model_type component_type) ;;
                   raise ModuleNotFoundError) ;;
  let component_module_members := mod_members component_module in
  let component_members_header :=
    map (fun nm => lower (fst nm)) component_module_members in
  if negb (str_in component_name component_members_header) then
    run emit (ErrNoSuchComponent component_name) ;; raise AttributeError
  else
    member_idx <- lift (list_index component_name component_members_header) ;;
    entry <- lift (list_getitem component_module_members member_idx) ;;
    let component_name_right_case := fst entry in
    component_class <-
      lift (module_getattr component_module_members component_name_right_case) ;;
    run (if bool_decide (inspect_getmodule component_class
                         = Some (mod_name component_module))
         then ret tt
         else emit (WarnExternComponent component_name)) ;;
    ret component_class.

(** The nested [search_for_pytorch]: walks [__bases__]; an object that is
    not a class has no [__bases__]. *)
Fixpoint search_for_pytorch (current_class : pyobj) : result bool :=
  match current_class with
  | PyValue _ _ => Raise AttributeError
  | PyClass _ _ bases =>
      (fix over (bs : list pyobj) : result bool :=
         match bs with
         | [] => Ok false
         | base :: bs' =>
             if is_nn_Module base then Ok true
             else match search_for_pytorch base with
                  | Ok true => Ok true
                  | Ok false => over bs'
                  | Raise e => Raise e
                  end
         end) bases
  end.

Definition get_model_class (h : host) (project model_type : string) : M pyobj :=
  model_class <- get_model_component_class h project model_type "model" model_type ;;
  is_torch <- lift (search_for_pytorch model_class) ;;
  run (if negb is_torch then emit (WarnNotPytorchModule model_type) else ret tt) ;;
  ret model_class.

Definition get_model_trainer (h : host) (project model_type : string) : M pyobj :=
  let trainer_name := model_type +:+ "trainer" in
  get_model_component_class h project model_type "trainer" trainer_name.

Definition get_model_parameters (h : host) (project model_type : string) : M pyobj :=
  let parameters_name := model_type +:+ "parameters" in
  get_model_component_class h project model_type "config" parameters_name.

(** ** os.path and the file operations the program uses *)

Definition slash : ascii := "/"%char.

(** [posixpath.join(a, b)] *)
Definition os_path_join (a b : string) : string :=
  if startswith b "/" then b
  else if String.eqb a "" || endswith a "/" then a +:+ b
  else a +:+ "/" +:+ b.

(** On a reversed path: the reversed last component, and the reversed
    rest up to and including the last slash. *)
Fixpoint rsplit_tail (r : list ascii) : list ascii * list ascii :=
  match r with
  | [] => ([], [])
  | c :: r' =>
      if Ascii.eqb c slash then ([], r)
      else let (t, hd) := rsplit_tail r' in (c :: t, hd)
  end.

Fixpoint drop_slashes (r : list ascii) : list ascii :=
  match r with
  | [] => []
  | c :: r' => if Ascii.eqb c slash then drop_slashes r' else r
  end.

(** [posixpath.split(p)]: head and tail; trailing slashes are stripped
    from the head unless it is all slashes. *)
Definition os_path_split (p : string) : string * string :=
  let (rt, rh) := rsplit_tail (List.rev (list_ascii_of_string p)) in
  let rh' := if forallb (Ascii.eqb slash) rh then rh else drop_slashes rh in
  (string_of_list_ascii (List.rev rh'), string_of_list_ascii (List.rev rt)).

Definition os_path_dirname (p : string) : string := fst (os_path_split p).

Definition os_path_exists (p : string) : M bool :=
  fun w => (w, Ok (bool_decide (is_Some (files w !! p)))).

Definition os_path_isfile (p : string) : M bool :=
  fun w => (w, Ok (match files w !! p with Some (File _) => true | _ => false end)).

Definition os_path_isdir (p : string) : M bool :=
  fun w => (w, Ok (match files w !! p with Some Dir => true | _ => false end)).

(** Why a new entry cannot be made at [p], if it cannot: the directory that
    is to hold it is missing or is a file.  An empty dirname is the current
    directory. *)
Definition parent_error (fs : gmap string node) (p : string) : option exn :=
  if String.eqb p "" then Some FileNotFoundError
  else
    let d := os_path_dirname p in
    if String.eqb d "" then None
    else match fs !! d with
         | Some Dir => None
         | Some (File _) => Some NotADirectoryError
         | None => Some FileNotFoundError
         end.

Definition set_node (p : string) (n : node) (w : world) : world :=
  {| files := <[p := n]> (files w); log := log w |}.

(** [os.mkdir(p)] *)
Definition os_mkdir (p : string) : M unit :=
  fun w =>
    match files w !! p with
    | Some _ => (w, Raise FileExistsError)
    | None =>
        match parent_error (files w) p with
        | Some e => (w, Raise e)
        | None => (set_node p Dir w, Ok tt)
        end
    end.

Definition is_OSError (e : exn) : bool :=
  match e with
  | FileExistsError | FileNotFoundError | IsADirectoryError | NotADirectoryError => true
  | _ => false
  end.

Definition is_FileExistsError (e : exn) : bool :=
  match e with FileExistsError => true | _ => false end.

(** The last step of [os.makedirs(name, exist_ok=True)]: [mkdir], and an
    [OSError] is swallowed when [name] is a directory. *)
Definition mkdir_exist_ok (name : string) : M unit :=
  try_except (os_mkdir name) is_OSError
    (fun e => isdir <- os_path_isdir name ;;
              if negb isdir then raise e else ret tt).

(** [os.makedirs(name, exist_ok=True)]; the recursion is on the head of the
    path, bounded here by [fuel]. *)
Fixpoint os_makedirs_fuel (fuel : nat) (name : string) : M unit :=
  match fuel with
  | O => raise RecursionError
  | S fuel' =>
      let (head0, tail0) := os_path_split name in
      let (head, tail) :=
        if String.eqb tail0 "" then os_path_split head0 else (head0, tail0) in
      head_exists <- os_path_exists head ;;
      if negb (String.eqb head "") && negb (String.eqb tail "") && negb head_exists
      then
        run try_except (os_makedirs_fuel fuel' head) is_FileExistsError
              (fun _ => ret tt) ;;
        if String.eqb tail "." then ret tt else mkdir_exist_ok name
      else mkdir_exist_ok name
  end.

Definition os_makedirs (name : string) : M unit :=
  os_makedirs_fuel (S (String.length name)) name.

(** [open(p, "w")] followed by writing [data] and closing. *)
Definition write_file (p data : string) : M unit :=
  fun w =>
    match files w !! p with
    | Some Dir => (w, Raise IsADirectoryError)
    | Some (File _) => (set_node p (File data) w, Ok tt)
    | None =>
        match parent_error (files w) p with
        | Some e => (w, Raise e)
        | None => (set_node p (File data) w, Ok tt)
        end
    end.

(** [open(p, "r")] followed by reading everything and closing. *)
Definition read_file (p : string) : M string :=
  fun w =>
    match files w !! p with
    | Some (File data) => (w, Ok data)
    | Some Dir => (w, Raise IsADirectoryError)
    | None =>
        match parent_error (files w) p with
        | Some NotADirectoryError => (w, Raise NotADirectoryError)
        | _ => (w, Raise FileNotFoundError)
        end
    end.

(** ** experiment.py *)

(** What [@dataclass] records of a class: whether it is frozen and the
    names of its fields (the class-level annotations). *)
Record dataclass : Type := {
  dc_name : string;
  dc_frozen : bool;
  dc_fields : list string
}.

(** The [__setattr__] that [@dataclass(frozen=True)] installs: it raises
    when [type(self) is cls] or the name is a field, and defers to
    [object.__setattr__] otherwise.  A class that is not frozen keeps
    [object.__setattr__]. *)
Definition dataclass_setattr (cls : dataclass) (type_of_self name : string) : M unit :=
  if dc_frozen cls
     && (String.eqb type_of_self (dc_name cls) || str_in name (dc_fields cls))
  then raise FrozenInstanceError
  else ret tt.

Module PathGenerator.

Record t : Type := { root : string }.

(** The generated [__init__] of a frozen dataclass stores its fields with
    [object.__setattr__]; construction cannot fail. *)
Definition new (root : string) : t := {| root := root |}.

Definition _concat_root_and_suffix (self : t) (suffix : string) : string :=
  os_path_join (root self) suffix.

Definition config_path (self : t) : string :=
  _concat_root_and_suffix self "config.yaml".

Definition checkpoint_path (self : t) : string :=
  _concat_root_and_suffix self "checkpoints".

Definition results_path (self : t) : string :=
  _concat_root_and_suffix self "results".

Definition tensorboard_path (self : t) : string :=
  _concat_root_and_suffix self "tensorboard".

Definition figures_path (self : t) : string :=
  _concat_root_and_suffix self "figures".

(** The attributes of an instance whose value is a path: the field and
    the five properties.  No other attribute of the class has a name that
    ends in [_path]. *)
Definition attributes : list (string * (t -> string)) :=
  [ ("root", root);
    ("config_path", config_path);
    ("checkpoint_path", checkpoint_path);
    ("results_path", results_path);
    ("tensorboard_path", tensorboard_path);
    ("figures_path", figures_path) ].

Fixpoint lookup_attribute (table : list (string * (t -> string))) (name : string)
  : option (t -> string) :=
  match table with
  | [] => None
  | (n, f) :: table' =>
      if String.eqb n name then Some f else lookup_attribute table' name
  end.

(** [getattr(self, name)], for the names the program asks for (all of them
    end in [_path]). *)
Definition getattr (self : t) (name : string) : result string :=
  match lookup_attribute attributes name with
  | Some f => Ok (f self)
  | None => Raise AttributeError
  end.

Definition get_path_by_name (self : t) (name : string) : result string :=
  getattr self (str_join "_" [name; "path"]).

End PathGenerator.

Module PathCreator.

Record t : Type := { path_generator : PathGenerator.t }.

Definition decl : dataclass :=
  {| dc_name := "PathCreator"; dc_frozen := true; dc_fields := [] |}.

Definition __init__ (root : string) : M t :=
  let path_generator := PathGenerator.new root in
  run dataclass_setattr decl "PathCreator" "path_generator" ;;
  ret {| path_generator := path_generator |}.

Definition create_config_file (h : host) (self : t) (config : pydict) : M unit :=
  write_file (PathGenerator.config_path (path_generator self)) (yaml_dump h config).

Definition create_checkpoits_dir (self : t) : M unit :=
  p <- lift (PathGenerator.getattr (path_generator self) "checkpoints_path") ;;
  os_makedirs p.

Definition create_results_dir (self : t) : M unit :=
  os_makedirs (PathGenerator.results_path (path_generator self)).

Definition create_tensorboard_dir (self : t) : M unit :=
  os_makedirs (PathGenerator.tensorboard_path (path_generator self)).

Definition create_figures_dir (self : t) : M unit :=
  os_makedirs (PathGenerator.figures_path (path_generator self)).

End PathCreator.

(** [d[k]] *)
Definition dict_getitem (d : pydict) (k : string) : M pyval :=
  match dict_get d k with
  | Some v => ret v
  | None => raise KeyError
  end.

(** The receiver of [.lower()]: only a [str] has the method. *)
Definition str_receiver (v : pyval) : M string :=
  match v with
  | PStr s => ret s
  | _ => raise AttributeError
  end.

Module Experiment.

Record t : Type := {
  path : string;
  config : pydict;
  paths : PathGenerator.t;
  model_class : pyobj;
  trainer_class : pyobj;
  parameters_class : pyobj
}.

Definition decl : dataclass :=
  {| dc_name := "Experiment"; dc_frozen := true; dc_fields := [] |}.

Definition __init__ (h : host) (path : string) (config : pydict) : M t :=
  run dataclass_setattr decl "Experiment" "path" ;;
  run dataclass_setattr decl "Experiment" "config" ;;
  let paths := PathGenerator.new path in
  run dataclass_setattr decl "Experiment" "paths" ;;
  project <- dict_getitem config "project" ;;
  model_type <- dict_getitem config "model_type" ;;
  model_type <- str_receiver model_type ;;
  let project := format_value h project in
  model_class <- get_model_class h project model_type ;;
  run dataclass_setattr decl "Experiment" "model_class" ;;
  trainer_class <- get_model_trainer h project model_type ;;
  run dataclass_setattr decl "Experiment" "trainer_class" ;;
  parameters_class <- get_model_parameters h project model_type ;;
  run dataclass_setattr decl "Experiment" "parameters_class" ;;
  ret {| path := path; config := config; paths := paths;
         model_class := model_class; trainer_class := trainer_class;
         parameters_class := parameters_class |}.

Definition open (h : host) (path : string) : M t :=
  run emit (InfoLoadingExperiment path) ;;
  data <- read_file path ;;
  doc <- lift (yaml_safe_load h data) ;;
  config <- lift (ExperimentConfig_dict h doc) ;;
  __init__ h path config.

Definition generate_new_name (h : host) (config : pydict) : M string :=
  project <- dict_getitem config "project" ;;
  model_type <- dict_getitem config "model_type" ;;
  let timestamp := strftime_localtime h in
  let name := format_value h project +:+ "-" +:+ format_value h model_type
              +:+ "-" +:+ timestamp in
  ret name.

Definition create_from_dict (h : host) (config : pydict) (outdir : string) : M t :=
  run emit (InfoCreatingExperiment config) ;;
  name <- generate_new_name h config ;;
  let path := os_path_join outdir name in
  path_exists <- os_path_exists path ;;
  run (if path_exists : bool then
         run emit (ErrPathExists path) ;;
         raise FileExistsError
       else
         run os_mkdir path ;;
         path_creator <- PathCreator.__init__ path ;;
         run PathCreator.create_config_file h path_creator config ;;
         run PathCreator.create_checkpoits_dir path_creator ;;
         run PathCreator.create_results_dir path_creator ;;
         run PathCreator.create_tensorboard_dir path_creator ;;
         PathCreator.create_figures_dir path_creator) ;;
  __init__ h path config.

Definition _create_element_path (self : t) (element_name name : string) : M string :=
  path <- try_except
            (lift (PathGenerator.get_path_by_name (paths self) element_name))
            is_AttributeError
            (fun e => run emit (ErrElementNotFound element_name) ;; raise e) ;;
  let path := os_path_join path name in
  ret path.

Definition _is_element_available (self : t) (element_name name : string) : M bool :=
  path <- _create_element_path self element_name name ;;
  os_path_isfile path.

Definition _load_element (h : host) (self : t) (element_name name : string) : M pyval :=
  path <- _create_element_path self element_name name ;;
  data <- read_file path ;;
  lift (torch_load h data).

(** [torch.save(element, path)] opens [path] for writing itself; when that
    fails nothing is written, and the model raises what [open] raises. *)
Definition _save_element (h : host) (self : t) (element : pyval)
    (element_name name : string) : M unit :=
  path <- _create_element_path self element_name name ;;
  write_file path (torch_save h element).

Definition is_checkpoint_available (self : t) (name : string) : M bool :=
  _is_element_available self "checkpoints" name.

Definition is_results_available (self : t) (name : string) : M bool :=
  _is_element_available self "results" name.

Definition load_checkpoint (h : host) (self : t) (name : string) : M pyval :=
  _load_element h self "checkpoints" name.

Definition save_checkpoint (h : host) (self : t) (checkpoint : pyval) (name : string)
  : M unit :=
  _save_element h self checkpoint "checkpoints" name.

Definition load_results (h : host) (self : t) (name : string) : M pyval :=
  _load_element h self "results" name.

Definition save_results (h : host) (self : t) (results : pyval) (name : string)
  : M unit :=
  _save_element h self results "results" name.

End Experiment.

(** ** A concrete project, host and file system

    The project [demo] with the model type [mlp]: the package
    [demo.models.mlp] and its three component modules, each declaring one
    class.  Names are matched exactly by the import system, as on a
    case-sensitive file system. *)

Definition cls_Module : pyobj :=
  PyClass nn_Module_qualname (Some "torch.nn.modules.module") [].

Definition cls_MLP : pyobj :=
  PyClass "demo.models.mlp.model.MLP" (Some "demo.models.mlp.model") [cls_Module].

Definition cls_MLPTrainer : pyobj :=
  PyClass "demo.models.mlp.trainer.MLPTrainer" (Some "demo.models.mlp.trainer") [].

Definition cls_MLPParameters : pyobj :=
  PyClass "demo.models.mlp.config.MLPParameters" (Some "demo.models.mlp.config") [].

Definition demo_import (name : string) : result pymodule :=
  if String.eqb name "demo.models.mlp" then
    Ok {| mod_name := name; mod_members := [] |}
  else if String.eqb name "demo.models.mlp.model" then
    Ok {| mod_name := name;
          mod_members := [ ("MLP", cls_MLP);
                           ("nn", PyValue "torch.nn" (Some "torch.nn")) ] |}
  else if String.eqb name "demo.models.mlp.trainer" then
    Ok {| mod_name := name; mod_members := [ ("MLPTrainer", cls_MLPTrainer) ] |}
  else if String.eqb name "demo.models.mlp.config" then
    Ok {| mod_name := name; mod_members := [ ("MLPParameters", cls_MLPParameters) ] |}
  else if String.eqb name "demo.models.cnn" then
    Ok {| mod_name := name; mod_members := [] |}
  else Raise ModuleNotFoundError.

Definition demo_config : pydict :=
  [ ("project", PStr "demo");
    ("model_type", PStr "mlp");
    ("parameters", PDict [ ("layers", PInt 3) ]) ].

Definition demo_yaml : string :=
  "model_type: mlp
parameters:
  layers: 3
project: demo
".

Definition demo_blob : pyval := PDict [ ("epoch", PInt 1) ].

(** The class [ExperimentConfig] declares the fields [project : str],
    [model_type : str] and [parameters : Any]; on this host all three are
    required and the result holds exactly these three. *)
Definition declared_fields_dict (doc : pyval) : result pydict :=
  match doc with
  | PDict d =>
      match dict_get d "project", dict_get d "model_type", dict_get d "parameters" with
      | Some (PStr project), Some (PStr model_type), Some parameters =>
          Ok [ ("project", PStr project);
               ("model_type", PStr model_type);
               ("parameters", parameters) ]
      | _, _, _ => Raise ValidationError
      end
  | _ => Raise TypeError
  end.

(** The serializers of this host know the one document and the one blob of
    the example. *)
Definition demo_host : host := {|
  import_module := demo_import;
  strftime_localtime := "2024-01-01-00-00-00";
  str_of := fun _ => "object";
  yaml_dump := fun _ => demo_yaml;
  yaml_safe_load := fun s =>
    if String.eqb s demo_yaml then Ok (PDict demo_config) else Raise YAMLError;
  torch_save := fun _ => "epoch=1";
  torch_load := fun s =>
    if String.eqb s "epoch=1" then Ok demo_blob else Raise UnpicklingError;
  ExperimentConfig_dict := declared_fields_dict
|}.

Definition demo_path : string := "/tmp/exp/demo-mlp-2024-01-01-00-00-00".

Definition mk_world (entries : list (string * node)) : world :=
  {| files := list_to_map entries; log := [] |}.

(** [/tmp/exp] exists and is empty. *)
Definition demo_world : world :=
  mk_world [ ("/", Dir); ("/tmp", Dir); ("/tmp/exp", Dir) ].

(** [/tmp/exp] already holds a directory with the generated name. *)
Definition taken_world : world :=
  mk_world [ ("/", Dir); ("/tmp", Dir); ("/tmp/exp", Dir); (demo_path, Dir) ].

(** An experiment directory laid out in full, with the configuration stored
    both as [config.yaml] and as [config], and one stored checkpoint and
    result. *)
Definition populated_world : world :=
  mk_world [ ("/", Dir); ("/tmp", Dir); ("/tmp/exp", Dir); (demo_path, Dir);
             (demo_path +:+ "/config.yaml", File demo_yaml);
             (demo_path +:+ "/config", File demo_yaml);
             (demo_path +:+ "/checkpoints", Dir);
             (demo_path +:+ "/results", Dir);
             (demo_path +:+ "/tensorboard", Dir);
             (demo_path +:+ "/figures", Dir);
             (demo_path +:+ "/checkpoints/e1", File "epoch=1");
             (demo_path +:+ "/results/e1", File "epoch=1") ].

(** An [Experiment] value for the populated directory, as the initializer
    would have filled it in. *)
Definition demo_experiment : Experiment.t := {|
  Experiment.path := demo_path;
  Experiment.config := demo_config;
  Experiment.paths := PathGenerator.new demo_path;
  Experiment.model_class := cls_MLP;
  Experiment.trainer_class := cls_MLPTrainer;
  Experiment.parameters_class := cls_MLPParameters
|}.

(** ** Vocabulary for stating properties *)

(** A name without a slash: one path component. *)
Fixpoint no_slash (s : string) : bool :=
  match s with
  | EmptyString => true
  | String c s' => negb (Ascii.eqb c slash) && no_slash s'
  end.

(** A name that denotes an entry of its own in a directory: one component,
    not empty and neither [.] nor [..]. *)
Definition plain_name (s : string) : bool :=
  no_slash s && negb (String.eqb s "") && negb (String.eqb s ".")
  && negb (String.eqb s "..").

(** [str.isascii]: every character is below 128.  On such strings
    [str.lower] works character by character. *)
Fixpoint is_ascii (s : string) : bool :=
  match s with
  | EmptyString => true
  | String c s' => (nat_of_ascii c <? 128)%nat && is_ascii s'
  end.

(** What [posixpath.join] puts in front of a relative second argument. *)
Definition join_prefix (a : string) : string :=
  if String.eqb a "" || endswith a "/" then a else a +:+ "/".

(** An object all of whose [__bases__], transitively, are classes. *)
Inductive class_tree : pyobj -> Prop :=
| class_tree_intro (q : string) (hm : option string) (bases : list pyobj) :
    Forall class_tree bases -> class_tree (PyClass q hm bases).

(** [torch.nn.Module] is among the proper ancestors of a class. *)
Inductive inherits_nn_Module : pyobj -> Prop :=
| inherits_direct (q : string) (hm : option string) (bases : list pyobj) (b : pyobj) :
    In b bases -> is_nn_Module b = true ->
    inherits_nn_Module (PyClass q hm bases)
| inherits_through (q : string) (hm : option string) (bases : list pyobj) (b : pyobj) :
    In b bases -> inherits_nn_Module b ->
    inherits_nn_Module (PyClass q hm bases).

(** ** A second project

    The project [lab]: the model type [net] whose model module binds the
    name [net] to a function, the model type [plain] whose model class does
    not derive from [torch.nn.Module] and is imported from another module,
    and the model type [broken] whose package fails while it is imported. *)

Definition cls_object : pyobj := PyClass "builtins.object" (Some "builtins") [].

Definition cls_Plain : pyobj :=
  PyClass "lab.shared.Plain" (Some "lab.shared") [cls_object].

Definition fn_net : pyobj := PyValue "function net" (Some "lab.models.net.model").

Definition lab_import (name : string) : result pymodule :=
  if String.eqb name "lab.models.net" then
    Ok {| mod_name := name; mod_members := [] |}
  else if String.eqb name "lab.models.net.model" then
    Ok {| mod_name := name; mod_members := [ ("net", fn_net) ] |}
  else if String.eqb name "lab.models.plain" then
    Ok {| mod_name := name; mod_members := [] |}
  else if String.eqb name "lab.models.plain.model" then
    Ok {| mod_name := name; mod_members := [ ("Plain", cls_Plain) ] |}
  else if String.eqb name "lab.models.broken" then Raise ImportError
  else Raise ModuleNotFoundError.

Definition lab_host : host := {|
  import_module := lab_import;
  strftime_localtime := strftime_localtime demo_host;
  str_of := str_of demo_host;
  yaml_dump := yaml_dump demo_host;
  yaml_safe_load := yaml_safe_load demo_host;
  torch_save := torch_save demo_host;
  torch_load := torch_load demo_host;
  ExperimentConfig_dict := ExperimentConfig_dict demo_host
|}.

(** ** color_logging.py

    The [logging] package is taken as follows.  The loggers made so far are
    a finite map from names to loggers; [logging.getLogger] returns the
    logger of the name, a new one without handlers when there is none, and
    the empty name and the name [root] both stand for the root logger.  A
    handler made by [logging.StreamHandler()] is a new object, so
    [addHandler] always appends it.  The colour codes of [colorama] and the
    formatting of a record by [logging.Formatter] are parameters. *)

Module color_logging.

Definition DEBUG : Z := 10.
Definition INFO : Z := 20.
Definition WARNING : Z := 30.
Definition ERROR : Z := 40.
Definition CRITICAL : Z := 50.
Definition NOTSET : Z := 0.

Record LogRecord : Type := {
  record_name : string;
  levelno : Z;
  levelname : string;
  asctime : string;
  record_message : string
}.

Record logging_lib : Type := {
  Fore_YELLOW : string;
  Fore_LIGHTRED_EX : string;
  Fore_RED : string;
  Style_RESET_ALL : string;
  (** [logging.Formatter(fmt).format(record)] *)
  Formatter_format : string -> LogRecord -> string
}.

Module CustomFormatter.

Definition message : string :=
  "%(asctime)s - %(name)s - %(levelname)s - %(message)s".

Definition COLORED_FORMAT (lib : logging_lib) : list (Z * string) :=
  [ (DEBUG, message);
    (INFO, message);
    (WARNING, (Fore_YELLOW lib +:+ message) +:+ Style_RESET_ALL lib);
    (ERROR, (Fore_LIGHTRED_EX lib +:+ message) +:+ Style_RESET_ALL lib);
    (CRITICAL, (Fore_RED lib +:+ message) +:+ Style_RESET_ALL lib) ].

(** [d[k]] on a dictionary with integer keys. *)
Fixpoint level_getitem (d : list (Z * string)) (k : Z) : result string :=
  match d with
  | [] => Raise KeyError
  | (k', v) :: d' => if Z.eqb k' k then Ok v else level_getitem d' k
  end.

Definition format (lib : logging_lib) (record : LogRecord) : result string :=
  let record_level := levelno record in
  match level_getitem (COLORED_FORMAT lib) record_level with
  | Ok log_fmt => Ok (Formatter_format lib log_fmt record)
  | Raise e => Raise e
  end.

End CustomFormatter.

(** A stream handler, with the formatter it was given (always a
    [CustomFormatter] here). *)
Record Handler : Type := { handler_level : Z }.

Record Logger : Type := {
  logger_level : Z;
  handlers : list Handler
}.

Definition logger_key (name : string) : string :=
  if String.eqb name "" || String.eqb name "root" then "root" else name.

Definition new_logger (key : string) : Logger :=
  {| logger_level := if String.eqb key "root" then WARNING else NOTSET;
     handlers := [] |}.

(** [logging.getLogger(name)] *)
Definition getLogger (name : string) (loggers : gmap string Logger) : Logger :=
  match loggers !! logger_key name with
  | Some logger => logger
  | None => new_logger (logger_key name)
  end.

Definition get_logger (name : string) (level : Z) (loggers : gmap string Logger)
  : gmap string Logger * Logger :=
  let logger := getLogger name loggers in
  let logger := {| logger_level := level; handlers := handlers logger |} in
  let handler := {| handler_level := level |} in
  let logger := {| logger_level := logger_level logger;
                   handlers := handlers logger ++ [handler] |} in
  (<[logger_key name := logger]> loggers, logger).

(** The property [LoggerMixin.logger] of an instance of the class
    [class_name]. *)
Definition LoggerMixin_logger (class_name : string) (loggers : gmap string Logger)
  : gmap string Logger * Logger :=
  get_logger class_name DEBUG loggers.

End color_logging.

(** The colour codes of [colorama], and a formatter that writes the message
    of the record only. *)
Definition demo_logging_lib : color_logging.logging_lib := {|
  color_logging.Fore_YELLOW := String (ascii_of_nat 27) "[33m";
  color_logging.Fore_LIGHTRED_EX := String (ascii_of_nat 27) "[91m";
  color_logging.Fore_RED := String (ascii_of_nat 27) "[31m";
  color_logging.Style_RESET_ALL := String (ascii_of_nat 27) "[0m";
  color_logging.Formatter_format := fun _ record => color_logging.record_message record
|}.

Definition demo_record : color_logging.LogRecord := {|
  color_logging.record_name := "demo";
  color_logging.levelno := 25;
  color_logging.levelname := "Level 25";
  color_logging.asctime := "2024-01-01 00:00:00,000";
  color_logging.record_message := "hello"
|}.

(** Induction on a [pyobj] that reaches the bases of a class. *)
Fixpoint pyobj_bases_ind (P : pyobj -> Prop)
    (Hclass : forall q hm bases, Forall P bases -> P (PyClass q hm bases))
    (Hvalue : forall ident hm, P (PyValue ident hm))
    (o : pyobj) : P o :=
  match o with
  | PyClass q hm bases =>
      Hclass q hm bases
        ((fix all (bs : list pyobj) : Forall P bs :=
            match bs with
            | [] => @List.Forall_nil pyobj P
            | b :: bs' =>
                @List.Forall_cons pyobj P b bs' (pyobj_bases_ind P Hclass Hvalue b) (all bs')
            end) bases)
  | PyValue ident hm => Hvalue ident hm
  end.

(** * Properties *)

(** ** The monad *)

Lemma result_of_bind {A B} (c : M A) (k : A -> M B) (w : world) :
  result_of (bind c k) w =
  match c w with
  | (w', Ok a) => result_of (k a) w'
  | (_, Raise e) => Raise e
  end.
Proof. unfold result_of, bind. destruct (c w) as [w' [a|e]]; reflexivity. Qed.

Lemma world_after_bind {A B} (c : M A) (k : A -> M B) (w : world) :
  world_after (bind c k) w =
  match c w with
  | (w', Ok a) => world_after (k a) w'
  | (w', Raise e) => w'
  end.
Proof. unfold world_after, bind. destruct (c w) as [w' [a|e]]; reflexivity. Qed.

(** A computation that ends in a step that always raises never returns. *)
Lemma bind_never_ok {A B} (c : M A) (k : A -> M B) (w : world) :
  (forall a w', is_ok (result_of (k a) w') = false) ->
  is_ok (result_of (bind c k) w) = false.
Proof.
  intros Hk. rewrite result_of_bind.
  destruct (c w) as [w' [a|e]]; [apply Hk | reflexivity].
Qed.

(** ** The file system: [os.makedirs] never runs out of fuel *)

Lemma string_of_list_ascii_length (l : list ascii) :
  String.length (string_of_list_ascii l) = length l.
Proof. induction l as [|c l IH]; cbn; [reflexivity | now rewrite IH]. Qed.

Lemma list_ascii_of_string_length (s : string) :
  length (list_ascii_of_string s) = String.length s.
Proof. induction s as [|c s IH]; cbn; [reflexivity | now rewrite IH]. Qed.

Lemma rsplit_tail_length (r : list ascii) :
  length (fst (rsplit_tail r)) + length (snd (rsplit_tail r)) = length r.
Proof.
  induction r as [|c r IH]; [reflexivity|].
  cbn [rsplit_tail]. destruct (Ascii.eqb c slash); [reflexivity|].
  destruct (rsplit_tail r) as [t hd]. cbn in *. lia.
Qed.

Lemma drop_slashes_length (r : list ascii) : length (drop_slashes r) <= length r.
Proof.
  induction r as [|c r IH]; [reflexivity|].
  cbn [drop_slashes]. destruct (Ascii.eqb c slash); cbn; lia.
Qed.

Lemma os_path_split_length (p : string) :
  String.length (fst (os_path_split p)) + String.length (snd (os_path_split p))
  <= String.length p.
Proof.
  unfold os_path_split.
  pose proof (rsplit_tail_length (List.rev (list_ascii_of_string p))) as Hlen.
  destruct (rsplit_tail _) as [rt rh]. cbn [fst snd] in *.
  rewrite length_rev, list_ascii_of_string_length in Hlen.
  rewrite !string_of_list_ascii_length, !length_rev.
  pose proof (drop_slashes_length rh).
  destruct (forallb _ rh); lia.
Qed.

Lemma eqb_empty_false_length (s : string) :
  String.eqb s "" = false -> 0 < String.length s.
Proof. destruct s; [discriminate | cbn; lia]. Qed.

Lemma mkdir_exist_ok_no_recursion_error (name : string) (w : world) :
  result_of (mkdir_exist_ok name) w <> Raise RecursionError.
Proof.
  unfold mkdir_exist_ok, result_of, try_except, os_mkdir, bind, os_path_isdir, raise, ret.
  destruct (files w !! name) as [n|] eqn:Hn.
  - cbn. rewrite Hn. destruct n; cbn; discriminate.
  - unfold parent_error.
    destruct (String.eqb name ""); [cbn; rewrite Hn; cbn; discriminate|].
    destruct (String.eqb (os_path_dirname name) ""); [cbn; discriminate|].
    destruct (files w !! os_path_dirname name) as [[|d]|]; cbn; try rewrite Hn; cbn;
      discriminate.
Qed.

Lemma os_makedirs_fuel_enough (fuel : nat) (name : string) (w : world) :
  String.length name < fuel ->
  result_of (os_makedirs_fuel fuel name) w <> Raise RecursionError.
Proof.
  revert name w. induction fuel as [|fuel IH]; intros name w Hlt; [lia|].
  cbn [os_makedirs_fuel].
  pose proof (os_path_split_length name) as Hs0.
  destruct (os_path_split name) as [head0 tail0]. cbn [fst snd] in Hs0.
  assert (Hs : forall head tail,
             (if String.eqb tail0 "" then os_path_split head0 else (head0, tail0))
             = (head, tail) ->
             String.length head + String.length tail <= String.length name).
  { intros head tail. destruct (String.eqb tail0 "").
    - intros Heq. pose proof (os_path_split_length head0) as Hs1.
      rewrite Heq in Hs1. cbn [fst snd] in Hs1. lia.
    - intros Heq. injection Heq as <- <-. exact Hs0. }
  destruct (if String.eqb tail0 "" then os_path_split head0 else (head0, tail0))
    as [head tail].
  specialize (Hs head tail eq_refl).
  unfold result_of, bind at 1. unfold os_path_exists at 1.
  destruct (negb (String.eqb head "") && negb (String.eqb tail "")
            && negb (bool_decide (is_Some (files w !! head)))) eqn:Hcond.
  - apply andb_prop in Hcond as [Hcond _]. apply andb_prop in Hcond as [_ Htail].
    apply negb_true_iff, eqb_empty_false_length in Htail.
    unfold bind at 1, try_except at 1.
    pose proof (IH head w ltac:(lia)) as Hrec. unfold result_of in Hrec.
    destruct (os_makedirs_fuel fuel head w) as [w1 [[]|e]].
    + destruct (String.eqb tail "."); [cbn; discriminate|].
      apply mkdir_exist_ok_no_recursion_error.
    + destruct e; cbn in *; try discriminate; try congruence.
      destruct (String.eqb tail "."); [cbn; discriminate|].
      apply mkdir_exist_ok_no_recursion_error.
  - apply mkdir_exist_ok_no_recursion_error.
Qed.

Lemma os_makedirs_no_recursion_error (name : string) (w : world) :
  result_of (os_makedirs name) w <> Raise RecursionError.
Proof. unfold os_makedirs. apply os_makedirs_fuel_enough. lia. Qed.

(** ** Frozen dataclasses with hand-written initializers *)

Lemma frozen_setattr_raises (cls : dataclass) (name : string) (w : world) :
  dc_frozen cls = true ->
  dataclass_setattr cls (dc_name cls) name w = (w, Raise FrozenInstanceError).
Proof.
  intros Hf. unfold dataclass_setattr.
  rewrite Hf, String.eqb_refl. reflexivity.
Qed.

Lemma Experiment_init_raises (h : host) (path : string) (config : pydict) (w : world) :
  Experiment.__init__ h path config w = (w, Raise FrozenInstanceError).
Proof.
  unfold Experiment.__init__, bind.
  change "Experiment" with (dc_name Experiment.decl).
  rewrite frozen_setattr_raises by reflexivity. reflexivity.
Qed.

Lemma PathCreator_init_raises (root : string) (w : world) :
  PathCreator.__init__ root w = (w, Raise FrozenInstanceError).
Proof.
  unfold PathCreator.__init__, bind.
  change "PathCreator" with (dc_name PathCreator.decl).
  rewrite frozen_setattr_raises by reflexivity. reflexivity.
Qed.

(** C3: [Experiment] and [PathCreator] are frozen dataclasses whose
    hand-written initializers assign attributes, so constructing either one
    raises [FrozenInstanceError] (at the first assignment, leaving the world
    as it was); hence neither [create_from_dict] nor [open] ever returns an
    [Experiment]. *)
Theorem frozen_construction_always_raises
    (h : host) (path outdir : string) (config : pydict) (w : world) :
  dc_frozen Experiment.decl = true /\
  dc_frozen PathCreator.decl = true /\
  Experiment.__init__ h path config w = (w, Raise FrozenInstanceError) /\
  PathCreator.__init__ path w = (w, Raise FrozenInstanceError) /\
  is_ok (result_of (Experiment.create_from_dict h config outdir) w) = false /\
  is_ok (result_of (Experiment.open h path) w) = false.
Proof.
  split; [reflexivity|]. split; [reflexivity|].
  split; [apply Experiment_init_raises|].
  split; [apply PathCreator_init_raises|].
  assert (Hinit : forall p c w0,
             is_ok (result_of (Experiment.__init__ h p c) w0) = false).
  { intros p c w0. unfold result_of. rewrite Experiment_init_raises. reflexivity. }
  split.
  - unfold Experiment.create_from_dict.
    do 4 (apply bind_never_ok; intros). apply Hinit.
  - unfold Experiment.open.
    do 4 (apply bind_never_ok; intros). apply Hinit.
Qed.

(** ** Creating an experiment *)

Lemma generate_new_name_ok (h : host) (config : pydict) (p m : pyval) (w : world) :
  dict_get config "project" = Some p ->
  dict_get config "model_type" = Some m ->
  Experiment.generate_new_name h config w =
  (w, Ok (format_value h p +:+ "-" +:+ format_value h m +:+ "-"
          +:+ strftime_localtime h)).
Proof.
  intros Hp Hm. unfold Experiment.generate_new_name, dict_getitem, bind.
  rewrite Hp, Hm. reflexivity.
Qed.

(** C9: when the directory with the generated name
    [<project>-<model_type>-<timestamp>] is already present under
    [outdir] (as a directory, or as any other entry), [create_from_dict]
    raises [FileExistsError] and leaves the file system exactly as it
    was. *)
Theorem create_from_dict_existing_path
    (h : host) (config : pydict) (outdir : string) (w : world) (p m : pyval) :
  dict_get config "project" = Some p ->
  dict_get config "model_type" = Some m ->
  let name := format_value h p +:+ "-" +:+ format_value h m +:+ "-"
              +:+ strftime_localtime h in
  is_Some (files w !! os_path_join outdir name) ->
  result_of (Experiment.create_from_dict h config outdir) w = Raise FileExistsError /\
  files (world_after (Experiment.create_from_dict h config outdir) w) = files w.
Proof.
  intros Hp Hm name Hex.
  assert (Hrun : Experiment.create_from_dict h config outdir w =
                 ({| files := files w;
                     log := (log w ++ [InfoCreatingExperiment config])
                            ++ [ErrPathExists (os_path_join outdir name)] |},
                  Raise FileExistsError)).
  { unfold Experiment.create_from_dict.
    unfold bind at 1. cbn [emit].
    unfold bind at 1.
    rewrite (generate_new_name_ok h config p m _ Hp Hm). fold name.
    unfold bind at 1. unfold os_path_exists. cbn [files].
    rewrite bool_decide_true by exact Hex.
    reflexivity. }
  unfold result_of, world_after. rewrite Hrun. split; reflexivity.
Qed.

Lemma create_from_dict_existing_path_witness :
  result_of (Experiment.create_from_dict demo_host demo_config "/tmp/exp") taken_world
  = Raise FileExistsError /\
  files (world_after (Experiment.create_from_dict demo_host demo_config "/tmp/exp")
           taken_world) = files taken_world.
Proof.
  apply (create_from_dict_existing_path demo_host demo_config "/tmp/exp" taken_world
           (PStr "demo") (PStr "mlp")).
  - reflexivity.
  - reflexivity.
  - vm_compute. eexists. reflexivity.
Defined.

(** C1, what fails: with [/tmp/exp] present and the experiment directory
    absent, [create_from_dict] does not return an [Experiment], and neither a
    file [config] nor any of the four subdirectories appears under the new
    directory; the layout's configuration path is [config.yaml], not
    [config]; and under an [outdir] that does not exist ([/data]) the call
    raises [FileNotFoundError] and creates nothing. *)
Lemma create_from_dict_counterexample :
  let c := Experiment.create_from_dict demo_host demo_config "/tmp/exp" in
  let after := files (world_after c demo_world) in
  dict_get demo_config "project" = Some (PStr "demo") /\
  dict_get demo_config "model_type" = Some (PStr "mlp") /\
  files demo_world !! demo_path = None /\
  ~ (after !! demo_path = Some Dir /\
     after !! os_path_join demo_path "config"
       = Some (File (yaml_dump demo_host demo_config)) /\
     after !! os_path_join demo_path "checkpoints" = Some Dir /\
     after !! os_path_join demo_path "results" = Some Dir /\
     after !! os_path_join demo_path "tensorboard" = Some Dir /\
     after !! os_path_join demo_path "figures" = Some Dir /\
     is_ok (result_of c demo_world) = true) /\
  PathGenerator.config_path (PathGenerator.new demo_path)
    <> os_path_join demo_path "config" /\
  files demo_world !! "/data" = None /\
  result_of (Experiment.create_from_dict demo_host demo_config "/data") demo_world
    = Raise FileNotFoundError /\
  files (world_after (Experiment.create_from_dict demo_host demo_config "/data")
           demo_world) = files demo_world.
Proof.
  cbv zeta. repeat split; try (vm_compute; reflexivity).
  - intros (_ & Hconfig & _). vm_compute in Hconfig. discriminate Hconfig.
  - vm_compute. discriminate.
Qed.

(** C1, amended: for a configuration with the keys [project] and
    [model_type], when the directory
    [<outdir>/<project>-<model_type>-<timestamp>] is absent and the directory
    that is to hold it exists, [create_from_dict] does not fail with
    [FileExistsError] and creates that directory; the fixed layout under it
    has five subpaths: the configuration file [config.yaml] and the
    directories [checkpoints], [results], [tensorboard] and [figures]. *)
Theorem create_from_dict_fresh_path
    (h : host) (config : pydict) (outdir : string) (w : world) (p m : pyval) :
  dict_get config "project" = Some p ->
  dict_get config "model_type" = Some m ->
  let name := format_value h p +:+ "-" +:+ format_value h m +:+ "-"
              +:+ strftime_localtime h in
  let path := os_path_join outdir name in
  let layout := PathGenerator.new path in
  files w !! path = None ->
  parent_error (files w) path = None ->
  result_of (Experiment.create_from_dict h config outdir) w <> Raise FileExistsError /\
  files (world_after (Experiment.create_from_dict h config outdir) w) !! path
    = Some Dir /\
  PathGenerator.config_path layout = os_path_join path "config.yaml" /\
  PathGenerator.checkpoint_path layout = os_path_join path "checkpoints" /\
  PathGenerator.results_path layout = os_path_join path "results" /\
  PathGenerator.tensorboard_path layout = os_path_join path "tensorboard" /\
  PathGenerator.figures_path layout = os_path_join path "figures".
Proof.
  intros Hp Hm name path layout Hnone Hparent.
  assert (Hrun : Experiment.create_from_dict h config outdir w =
                 (set_node path Dir
                    {| files := files w;
                       log := log w ++ [InfoCreatingExperiment config] |},
                  Raise FrozenInstanceError)).
  { unfold Experiment.create_from_dict.
    unfold bind at 1. cbn [emit].
    unfold bind at 1.
    rewrite (generate_new_name_ok h config p m _ Hp Hm). fold name. fold path.
    unfold bind at 1. unfold os_path_exists. cbn [files].
    rewrite bool_decide_false by (rewrite Hnone; intros [x Hx]; discriminate Hx).
    unfold bind at 1 2. unfold os_mkdir. cbn [files].
    rewrite Hnone, Hparent.
    unfold bind at 1. rewrite PathCreator_init_raises. reflexivity. }
  unfold result_of, world_after. rewrite Hrun. cbn [fst snd set_node files].
  split; [discriminate|].
  split; [apply lookup_insert_eq|].
  repeat split.
Qed.

Lemma create_from_dict_fresh_path_witness :
  result_of (Experiment.create_from_dict demo_host demo_config "/tmp/exp") demo_world
    <> Raise FileExistsError /\
  files (world_after (Experiment.create_from_dict demo_host demo_config "/tmp/exp")
           demo_world) !! demo_path = Some Dir.
Proof.
  pose proof (create_from_dict_fresh_path demo_host demo_config "/tmp/exp" demo_world
                (PStr "demo") (PStr "mlp") eq_refl eq_refl) as H.
  cbv zeta in H.
  destruct H as (Hr & Hd & _).
  - vm_compute. reflexivity.
  - vm_compute. reflexivity.
  - split; [exact Hr | exact Hd].
Defined.

(** ** Opening an experiment *)

(** [open] hands its argument to the built-in [open]: the file it reads is
    the one at [path] itself. *)
Lemma open_reads_path_itself
    (h : host) (path data : string) (doc : pyval) (w : world) :
  files w !! path = Some (File data) ->
  yaml_safe_load h data = Ok doc ->
  result_of (Experiment.open h path) w =
  match ExperimentConfig_dict h doc with
  | Ok _ => Raise FrozenInstanceError
  | Raise e => Raise e
  end.
Proof.
  intros Hfile Hyaml.
  unfold Experiment.open, result_of.
  unfold bind at 1. cbn [emit].
  unfold bind at 1. unfold read_file. cbn [files]. rewrite Hfile.
  unfold bind at 1. unfold lift at 1. rewrite Hyaml.
  unfold bind at 1. unfold lift at 1.
  destruct (ExperimentConfig_dict h doc) as [config|e]; [|reflexivity].
  rewrite Experiment_init_raises. reflexivity.
Qed.

(** C8, the code at the failing input: on the path of an experiment
    directory, [open] raises [IsADirectoryError] whatever the directory
    holds, and the file system is left as it was. *)
Theorem open_on_directory_raises (h : host) (path : string) (w : world) :
  files w !! path = Some Dir ->
  result_of (Experiment.open h path) w = Raise IsADirectoryError /\
  files (world_after (Experiment.open h path) w) = files w.
Proof.
  intros Hdir.
  assert (Hrun : Experiment.open h path w =
                 ({| files := files w;
                     log := log w ++ [InfoLoadingExperiment path] |},
                  Raise IsADirectoryError)).
  { unfold Experiment.open.
    unfold bind at 1. cbn [emit].
    unfold bind at 1. unfold read_file. cbn [files]. rewrite Hdir.
    reflexivity. }
  unfold result_of, world_after. rewrite Hrun. split; reflexivity.
Qed.

Lemma open_on_directory_raises_witness :
  files populated_world !! os_path_join demo_path "config" = Some (File demo_yaml) /\
  files populated_world !! os_path_join demo_path "config.yaml" = Some (File demo_yaml) /\
  yaml_safe_load demo_host demo_yaml = Ok (PDict demo_config) /\
  ExperimentConfig_dict demo_host (PDict demo_config) = Ok demo_config /\
  result_of (Experiment.open demo_host demo_path) populated_world
    = Raise IsADirectoryError.
Proof.
  do 4 (split; [vm_compute; reflexivity|]).
  apply (open_on_directory_raises demo_host demo_path populated_world).
  vm_compute. reflexivity.
Defined.

(** C2, the code at the failing input: [create_from_dict] on the example
    configuration makes the directory and then raises
    [FrozenInstanceError], so there is no experiment to reopen; and [open]
    on the directory it made raises [IsADirectoryError]. *)
Theorem create_then_open_demo :
  let created := Experiment.create_from_dict demo_host demo_config "/tmp/exp" in
  ExperimentConfig_dict demo_host (PDict demo_config) = Ok demo_config /\
  result_of created demo_world = Raise FrozenInstanceError /\
  files (world_after created demo_world) !! demo_path = Some Dir /\
  result_of (Experiment.open demo_host demo_path) (world_after created demo_world)
    = Raise IsADirectoryError.
Proof. cbv zeta. repeat split; vm_compute; reflexivity. Qed.

(** ** Persistence *)

Section Persistence.

Context (h : host) (self : Experiment.t).

Lemma get_path_by_name_checkpoints (pg : PathGenerator.t) :
  PathGenerator.get_path_by_name pg "checkpoints" = Raise AttributeError.
Proof. reflexivity. Qed.

Lemma get_path_by_name_results (pg : PathGenerator.t) :
  PathGenerator.get_path_by_name pg "results" = Ok (PathGenerator.results_path pg).
Proof. reflexivity. Qed.

Lemma create_element_path_checkpoints (name : string) (w : world) :
  Experiment._create_element_path self "checkpoints" name w =
  ({| files := files w; log := log w ++ [ErrElementNotFound "checkpoints"] |},
   Raise AttributeError).
Proof. reflexivity. Qed.

Lemma create_element_path_results (name : string) (w : world) :
  Experiment._create_element_path self "results" name w =
  (w, Ok (os_path_join (PathGenerator.results_path (Experiment.paths self)) name)).
Proof. reflexivity. Qed.

(** C6, the code at the failing input: for the category [checkpoints]
    saving and loading raise [AttributeError] on every experiment, blob and
    name; nothing is written. *)
Theorem checkpoint_save_load_raise (blob : pyval) (name : string) (w : world) :
  result_of (Experiment._save_element h self blob "checkpoints" name) w
    = Raise AttributeError /\
  files (world_after (Experiment._save_element h self blob "checkpoints" name) w)
    = files w /\
  result_of (Experiment._load_element h self "checkpoints" name) w
    = Raise AttributeError.
Proof.
  unfold Experiment._save_element, Experiment._load_element, result_of, world_after.
  unfold bind. rewrite create_element_path_checkpoints.
  repeat split.
Qed.

(** C7, the code at the failing input: for the category [checkpoints] the
    existence check raises [AttributeError] on every experiment and name,
    after logging an error. *)
Theorem checkpoint_exists_raises (name : string) (w : world) :
  result_of (Experiment._is_element_available self "checkpoints" name) w
    = Raise AttributeError /\
  result_of (Experiment.is_checkpoint_available self name) w = Raise AttributeError /\
  log (world_after (Experiment._is_element_available self "checkpoints" name) w)
    = log w ++ [ErrElementNotFound "checkpoints"].
Proof.
  unfold Experiment.is_checkpoint_available, Experiment._is_element_available,
    result_of, world_after.
  unfold bind. rewrite create_element_path_checkpoints.
  repeat split.
Qed.

(** For the category [results] the existence check returns a boolean and
    changes nothing: a missing directory and a missing file both give
    [false]. *)
Lemma results_exists_total (name : string) (w : world) :
  Experiment._is_element_available self "results" name w =
  (w, Ok (match files w !! os_path_join
                    (PathGenerator.results_path (Experiment.paths self)) name with
          | Some (File _) => true
          | _ => false
          end)).
Proof.
  unfold Experiment._is_element_available, bind.
  rewrite create_element_path_results. reflexivity.
Qed.

(** For the category [results], a save succeeds on a name that is already
    stored: the entry is replaced. *)
Lemma results_save_overwrites (blob : pyval) (name old : string) (w : world) :
  files w !! os_path_join (PathGenerator.results_path (Experiment.paths self)) name
    = Some (File old) ->
  Experiment._save_element h self blob "results" name w =
  (set_node (os_path_join (PathGenerator.results_path (Experiment.paths self)) name)
     (File (torch_save h blob)) w, Ok tt).
Proof.
  intros Hold. unfold Experiment._save_element, bind.
  rewrite create_element_path_results. unfold write_file. rewrite Hold. reflexivity.
Qed.

(** For the category [results], a save that succeeds is seen by the
    existence check and read back by the load, provided the serializer of
    the host round-trips the blob. *)
Lemma results_save_load_roundtrip (blob : pyval) (name : string) (w : world) :
  torch_load h (torch_save h blob) = Ok blob ->
  result_of (Experiment._save_element h self blob "results" name) w = Ok tt ->
  let w' := world_after (Experiment._save_element h self blob "results" name) w in
  result_of (Experiment._is_element_available self "results" name) w' = Ok true /\
  result_of (Experiment._load_element h self "results" name) w' = Ok blob.
Proof.
  intros Hcodec Hsave w'.
  set (p := os_path_join (PathGenerator.results_path (Experiment.paths self)) name).
  assert (Hw' : files w' !! p = Some (File (torch_save h blob))).
  { subst w'. revert Hsave.
    unfold Experiment._save_element, result_of, world_after, bind.
    rewrite create_element_path_results. fold p.
    unfold write_file.
    destruct (files w !! p) as [[|old]|] eqn:Hp; cbn [fst snd].
    - discriminate.
    - intros _. cbn [set_node files]. apply lookup_insert_eq.
    - destruct (parent_error (files w) p); cbn [fst snd].
      + discriminate.
      + intros _. cbn [set_node files]. apply lookup_insert_eq. }
  split.
  - unfold result_of. rewrite results_exists_total. fold p.
    rewrite Hw'. reflexivity.
  - unfold Experiment._load_element, result_of, bind.
    rewrite create_element_path_results. fold p.
    unfold read_file. rewrite Hw'. unfold lift. cbn [snd]. exact Hcodec.
Qed.

End Persistence.

(** On the populated directory: a result is saved, seen and read back; the
    same three calls on a checkpoint all raise, although the checkpoint file
    is there. *)
Example persistence_demo :
  let saved := world_after (Experiment.save_results demo_host demo_experiment
                              demo_blob "e2") populated_world in
  result_of (Experiment.save_results demo_host demo_experiment demo_blob "e2")
    populated_world = Ok tt /\
  result_of (Experiment.is_results_available demo_experiment "e2") saved = Ok true /\
  result_of (Experiment.load_results demo_host demo_experiment "e2") saved
    = Ok demo_blob /\
  files populated_world !! (demo_path +:+ "/checkpoints/e1") = Some (File "epoch=1") /\
  result_of (Experiment.save_checkpoint demo_host demo_experiment demo_blob "e1")
    populated_world = Raise AttributeError /\
  result_of (Experiment.is_checkpoint_available demo_experiment "e1") populated_world
    = Raise AttributeError /\
  result_of (Experiment.load_checkpoint demo_host demo_experiment "e1") populated_world
    = Raise AttributeError.
Proof. cbv zeta. repeat split; vm_compute; reflexivity. Qed.

(** What the methods of [PathCreator] do on a value of the type, for the
    directory that [create_from_dict] has made: the configuration goes to
    [config.yaml], three of the four directories are made, and
    [create_checkpoits_dir] raises [AttributeError]. *)
Example path_creator_methods_demo :
  let pc := {| PathCreator.path_generator := PathGenerator.new demo_path |} in
  let w1 := world_after (PathCreator.create_config_file demo_host pc demo_config)
              taken_world in
  let w2 := world_after (PathCreator.create_results_dir pc) w1 in
  let w3 := world_after (PathCreator.create_tensorboard_dir pc) w2 in
  let w4 := world_after (PathCreator.create_figures_dir pc) w3 in
  files w4 !! (demo_path +:+ "/config.yaml") = Some (File demo_yaml) /\
  files w4 !! (demo_path +:+ "/config") = None /\
  files w4 !! (demo_path +:+ "/results") = Some Dir /\
  files w4 !! (demo_path +:+ "/tensorboard") = Some Dir /\
  files w4 !! (demo_path +:+ "/figures") = Some Dir /\
  result_of (PathCreator.create_checkpoits_dir pc) w4 = Raise AttributeError.
Proof. cbv zeta. repeat split; vm_compute; reflexivity. Qed.

(** ** The resolver *)

Lemma str_in_In (x : string) (l : list string) : str_in x l = true <-> In x l.
Proof.
  unfold str_in. rewrite existsb_exists. split.
  - intros (y & Hy & Heq). apply String.eqb_eq in Heq. subst y. exact Hy.
  - intros Hx. exists x. split; [exact Hx | apply String.eqb_refl].
Qed.

Lemma str_in_header_false (cn : string) (members : list (string * pyobj)) :
  (forall name o, In (name, o) members -> lower name <> cn) ->
  str_in cn (map (fun nm => lower (fst nm)) members) = false.
Proof.
  intros Hno. destruct (str_in cn _) eqn:Hin; [|reflexivity].
  apply str_in_In, in_map_iff in Hin. destruct Hin as ([name o] & Heq & Hmem).
  exfalso. exact (Hno name o Hmem Heq).
Qed.

(** [l.index(x)] is the first position that holds [x]. *)
Lemma list_index_first (x : string) (l : list string) :
  str_in x l = true ->
  exists i, list_index x l = Ok i /\ nth_error l i = Some x /\
            forall j y, (j < i)%nat -> nth_error l j = Some y -> y <> x.
Proof.
  induction l as [|y l IH]; intros Hin; [discriminate Hin|].
  cbn [list_index]. destruct (String.eqb y x) eqn:Hyx.
  - apply String.eqb_eq in Hyx. subst y. exists 0%nat.
    split; [reflexivity|]. split; [reflexivity|]. intros j y Hj. lia.
  - assert (Hin' : str_in x l = true).
    { unfold str_in in *. cbn [existsb] in Hin.
      rewrite String.eqb_sym, Hyx in Hin. exact Hin. }
    destruct (IH Hin') as (i & Hidx & Hnth & Hfirst).
    exists (S i). rewrite Hidx.
    split; [reflexivity|]. split; [exact Hnth|].
    intros [|j] z Hj Hz.
    + cbn in Hz. injection Hz as <-. apply String.eqb_neq. exact Hyx.
    + cbn in Hz. apply (Hfirst j z); [lia | exact Hz].
Qed.

(** [getattr] by the exact name of the entry at a position reached before
    any other entry of that name gives that entry. *)
Lemma module_getattr_first (members : list (string * pyobj)) (i : nat)
    (name : string) (o : pyobj) :
  nth_error members i = Some (name, o) ->
  (forall j n' o', (j < i)%nat -> nth_error members j = Some (n', o') -> n' <> name) ->
  module_getattr members name = Ok o.
Proof.
  revert i. induction members as [|[n x] members IH]; intros i Hnth Hfirst.
  - destruct i; discriminate Hnth.
  - destruct i as [|i]; cbn in Hnth.
    + injection Hnth as -> ->. cbn. rewrite String.eqb_refl. reflexivity.
    + cbn. destruct (String.eqb n name) eqn:Hn.
      * apply String.eqb_eq in Hn. exfalso.
        apply (Hfirst 0%nat n x); [lia | reflexivity | exact Hn].
      * apply (IH i Hnth). intros j n' o' Hj Hj'.
        apply (Hfirst (S j) n' o'); [lia | exact Hj'].
Qed.

(** The member the resolver picks once both modules are imported and the
    lowered name is in the lowered header. *)
Lemma pick_member (cn : string) (members : list (string * pyobj)) :
  str_in cn (map (fun nm => lower (fst nm)) members) = true ->
  exists i name o,
    list_index cn (map (fun nm => lower (fst nm)) members) = Ok i /\
    nth_error members i = Some (name, o) /\
    lower name = cn /\
    (forall j n' o', (j < i)%nat -> nth_error members j = Some (n', o') ->
                     lower n' <> cn) /\
    module_getattr members name = Ok o.
Proof.
  intros Hin. destruct (list_index_first _ _ Hin) as (i & Hidx & Hnth & Hfirst).
  rewrite nth_error_map in Hnth.
  destruct (nth_error members i) as [[name o]|] eqn:Hentry; [|discriminate Hnth].
  cbn in Hnth. injection Hnth as Hname.
  assert (Hbefore : forall j n' o', (j < i)%nat ->
                      nth_error members j = Some (n', o') -> lower n' <> cn).
  { intros j n' o' Hj Hj'. apply (Hfirst j (lower n') Hj).
    rewrite nth_error_map, Hj'. reflexivity. }
  exists i, name, o. repeat split; try assumption.
  apply (module_getattr_first members i name o Hentry).
  intros j n' o' Hj Hj' Heq. subst n'. exact (Hbefore j name o' Hj Hj' Hname).
Qed.

(** What the resolver does once both imports have succeeded. *)
Lemma resolve_imported (h : host) (p mt ct cn : string) (w : world) (m0 m : pymodule) :
  import_module h (p +:+ ".models." +:+ lower mt) = Ok m0 ->
  import_module h (p +:+ ".models." +:+ lower mt +:+ "." +:+ lower ct) = Ok m ->
  result_of (get_model_component_class h p mt ct cn) w =
  if str_in (lower cn) (map (fun nm => lower (fst nm)) (mod_members m))
  then match list_index (lower cn) (map (fun nm => lower (fst nm)) (mod_members m)) with
       | Ok i => match list_getitem (mod_members m) i with
                 | Ok entry => module_getattr (mod_members m) (fst entry)
                 | Raise e => Raise e
                 end
       | Raise e => Raise e
       end
  else Raise AttributeError.
Proof.
  intros H0 H1.
  unfold get_model_component_class, result_of, bind, try_except, lift.
  rewrite H0, H1.
  destruct (str_in _ _); cbn [negb]; [|reflexivity].
  destruct (list_index _ _) as [i|e]; [|reflexivity].
  destruct (list_getitem _ i) as [entry|e]; [|reflexivity].
  destruct (module_getattr _ _) as [c|e]; [|reflexivity].
  destruct (bool_decide _); reflexivity.
Qed.

(** A successful resolution comes from the component module: the result is
    the first member whose lowered name is the lowered component name,
    fetched under the name it is declared with. *)
Lemma resolve_ok_inversion (h : host) (p mt ct cn : string) (w : world) (c : pyobj) :
  result_of (get_model_component_class h p mt ct cn) w = Ok c ->
  exists m i name,
    import_module h (p +:+ ".models." +:+ lower mt +:+ "." +:+ lower ct) = Ok m /\
    nth_error (mod_members m) i = Some (name, c) /\
    lower name = lower cn /\
    (forall j n' o', (j < i)%nat -> nth_error (mod_members m) j = Some (n', o') ->
                     lower n' <> lower cn) /\
    module_getattr (mod_members m) name = Ok c.
Proof.
  intros Hok.
  destruct (import_module h (p +:+ ".models." +:+ lower mt)) as [m0|e0] eqn:H0.
  2:{ revert Hok.
      unfold get_model_component_class, result_of, bind, try_except, lift.
      rewrite H0. destruct e0; discriminate. }
  destruct (import_module h (p +:+ ".models." +:+ lower mt +:+ "." +:+ lower ct))
    as [m|e1] eqn:H1.
  2:{ revert Hok.
      unfold get_model_component_class, result_of, bind, try_except, lift.
      rewrite H0, H1. destruct e1; discriminate. }
  rewrite (resolve_imported h p mt ct cn w m0 m H0 H1) in Hok.
  destruct (str_in _ _) eqn:Hin; [|discriminate Hok].
  destruct (pick_member _ _ Hin) as (i & name & o & Hidx & Hnth & Hname & Hfirst & Hget).
  rewrite Hidx in Hok. unfold list_getitem in Hok. rewrite Hnth in Hok.
  cbn [fst] in Hok. rewrite Hget in Hok. injection Hok as ->.
  exists m, i, name. repeat split; assumption.
Qed.

(** The converse: with both modules imported and a member of the right
    lowered name present, the resolver returns. *)
Lemma resolve_member_found (h : host) (p mt ct cn : string) (w : world)
    (m0 m : pymodule) (name : string) (o : pyobj) :
  import_module h (p +:+ ".models." +:+ lower mt) = Ok m0 ->
  import_module h (p +:+ ".models." +:+ lower mt +:+ "." +:+ lower ct) = Ok m ->
  In (name, o) (mod_members m) ->
  lower name = lower cn ->
  is_ok (result_of (get_model_component_class h p mt ct cn) w) = true.
Proof.
  intros H0 H1 Hmem Hname.
  rewrite (resolve_imported h p mt ct cn w m0 m H0 H1).
  assert (Hin : str_in (lower cn) (map (fun nm => lower (fst nm)) (mod_members m)) = true).
  { apply str_in_In, in_map_iff. exists (name, o). split; assumption. }
  rewrite Hin.
  destruct (pick_member _ _ Hin) as (i & n & c & Hidx & Hnth & _ & _ & Hget).
  rewrite Hidx. unfold list_getitem. rewrite Hnth. cbn [fst]. rewrite Hget.
  reflexivity.
Qed.

(** Lower-casing is idempotent, so a call and the call on its lower-cased
    identifiers are the same computation. *)
Lemma lower_ascii_idempotent (c : ascii) : lower_ascii (lower_ascii c) = lower_ascii c.
Proof. destruct c as [[] [] [] [] [] [] [] []]; reflexivity. Qed.

Lemma lower_idempotent (s : string) : lower (lower s) = lower s.
Proof.
  induction s as [|c s IH]; [reflexivity|].
  cbn [lower]. rewrite lower_ascii_idempotent, IH. reflexivity.
Qed.

Lemma resolve_lowered (h : host) (p mt ct cn : string) :
  get_model_component_class h p (lower mt) (lower ct) (lower cn)
  = get_model_component_class h p mt ct cn.
Proof.
  unfold get_model_component_class. rewrite !lower_idempotent. reflexivity.
Qed.

(** C5: the failure modes of the resolver.  When the import of
    [<project>.models.<model_type>] raises [ModuleNotFoundError], or it
    succeeds and the import of the component submodule raises
    [ModuleNotFoundError], the resolver raises [ModuleNotFoundError] and not
    [AttributeError]; when both imports succeed and no member of the
    submodule has the component name after lower-casing, it raises
    [AttributeError]. *)
Theorem resolver_failure_modes (h : host) (p mt ct cn : string) (w : world) :
  let model_module_path := p +:+ ".models." +:+ lower mt in
  let component_module_path := p +:+ ".models." +:+ lower mt +:+ "." +:+ lower ct in
  let r := result_of (get_model_component_class h p mt ct cn) w in
  (import_module h model_module_path = Raise ModuleNotFoundError ->
   r = Raise ModuleNotFoundError /\ r <> Raise AttributeError) /\
  (forall m0,
     import_module h model_module_path = Ok m0 ->
     import_module h component_module_path = Raise ModuleNotFoundError ->
     r = Raise ModuleNotFoundError /\ r <> Raise AttributeError) /\
  (forall m0 m,
     import_module h model_module_path = Ok m0 ->
     import_module h component_module_path = Ok m ->
     (forall name o, In (name, o) (mod_members m) -> lower name <> lower cn) ->
     r = Raise AttributeError).
Proof.
  intros model_module_path component_module_path r.
  split; [|split].
  - intros H0.
    assert (Hr : r = Raise ModuleNotFoundError).
    { subst r model_module_path.
      unfold get_model_component_class, result_of, bind, try_except, lift.
      rewrite H0. reflexivity. }
    rewrite Hr. split; [reflexivity | discriminate].
  - intros m0 H0 H1.
    assert (Hr : r = Raise ModuleNotFoundError).
    { subst r model_module_path component_module_path.
      unfold get_model_component_class, result_of, bind, try_except, lift.
      rewrite H0, H1. reflexivity. }
    rewrite Hr. split; [reflexivity | discriminate].
  - intros m0 m H0 H1 Hno.
    subst r model_module_path component_module_path.
    rewrite (resolve_imported h p mt ct cn w m0 m H0 H1).
    rewrite (str_in_header_false (lower cn) (mod_members m) Hno). reflexivity.
Qed.

Lemma resolver_failure_modes_witness :
  result_of (get_model_component_class demo_host "demo" "rnn" "model" "rnn") demo_world
    = Raise ModuleNotFoundError /\
  result_of (get_model_component_class demo_host "demo" "cnn" "model" "cnn") demo_world
    = Raise ModuleNotFoundError /\
  result_of (get_model_component_class demo_host "demo" "mlp" "model" "resnet") demo_world
    = Raise AttributeError.
Proof.
  split; [|split].
  - apply (resolver_failure_modes demo_host "demo" "rnn" "model" "rnn" demo_world).
    reflexivity.
  - apply (proj1 (proj2 (resolver_failure_modes demo_host "demo" "cnn" "model" "cnn"
                           demo_world))
             {| mod_name := "demo.models.cnn"; mod_members := [] |});
      reflexivity.
  - apply (proj2 (proj2 (resolver_failure_modes demo_host "demo" "mlp" "model" "resnet"
                           demo_world))
             {| mod_name := "demo.models.mlp"; mod_members := [] |}
             {| mod_name := "demo.models.mlp.model";
                mod_members := [ ("MLP", cls_MLP);
                                 ("nn", PyValue "torch.nn" (Some "torch.nn")) ] |}).
    + reflexivity.
    + reflexivity.
    + intros name o [Heq|[Heq|[]]]; injection Heq as <- <-; vm_compute; discriminate.
Defined.

(** C4, what fails: the project identifier is not lower-cased.  With the
    package [demo], the calls with project [Demo] and project [demo] agree
    in all four identifiers after lower-casing, yet the first raises
    [ModuleNotFoundError] and the second returns the class [MLP]. *)
Lemma resolve_project_case_counterexample :
  lower "Demo" = lower "demo" /\
  result_of (get_model_component_class demo_host "demo" "mlp" "model" "mlp") demo_world
    = Ok cls_MLP /\
  result_of (get_model_component_class demo_host "Demo" "mlp" "model" "mlp") demo_world
    = Raise ModuleNotFoundError /\
  ~ (forall (h : host) (p1 p2 mt1 mt2 ct1 ct2 cn1 cn2 : string) (w : world),
       lower p1 = lower p2 -> lower mt1 = lower mt2 ->
       lower ct1 = lower ct2 -> lower cn1 = lower cn2 ->
       result_of (get_model_component_class h p1 mt1 ct1 cn1) w =
       result_of (get_model_component_class h p2 mt2 ct2 cn2) w).
Proof.
  split; [reflexivity|]. split; [reflexivity|]. split; [reflexivity|].
  intros Hall.
  specialize (Hall demo_host "Demo" "demo" "mlp" "mlp" "model" "model" "mlp" "mlp"
                demo_world eq_refl eq_refl eq_refl eq_refl).
  vm_compute in Hall. discriminate Hall.
Qed.

(** C4, amended: the model type, the component type and the component name
    are lower-cased before matching and the project is used as it is
    written; two calls with the same project whose other three identifiers
    agree after lower-casing behave the same (same result, same
    diagnostics).  The names of the members of the submodule are lower-cased
    one by one for the comparison: a returned component is a member whose
    name, lower-cased, is the lower-cased component name, and whenever the
    submodule has such a member (in whatever casing it is declared) the
    call returns one. *)
Theorem resolve_case_insensitive
    (h : host) (p mt1 mt2 ct1 ct2 cn1 cn2 : string) :
  lower mt1 = lower mt2 ->
  lower ct1 = lower ct2 ->
  lower cn1 = lower cn2 ->
  get_model_component_class h p mt1 ct1 cn1 = get_model_component_class h p mt2 ct2 cn2 /\
  (forall w c,
     result_of (get_model_component_class h p mt1 ct1 cn1) w = Ok c ->
     exists m name,
       import_module h (p +:+ ".models." +:+ lower mt2 +:+ "." +:+ lower ct2) = Ok m /\
       In (name, c) (mod_members m) /\
       lower name = lower cn2) /\
  (forall w m0 m name o,
     import_module h (p +:+ ".models." +:+ lower mt2) = Ok m0 ->
     import_module h (p +:+ ".models." +:+ lower mt2 +:+ "." +:+ lower ct2) = Ok m ->
     In (name, o) (mod_members m) ->
     lower name = lower cn2 ->
     exists c name',
       result_of (get_model_component_class h p mt1 ct1 cn1) w = Ok c /\
       In (name', c) (mod_members m) /\
       lower name' = lower cn2).
Proof.
  intros Hmt Hct Hcn.
  assert (Hsame : get_model_component_class h p mt1 ct1 cn1
                  = get_model_component_class h p mt2 ct2 cn2).
  { unfold get_model_component_class. rewrite Hmt, Hct, Hcn. reflexivity. }
  split; [exact Hsame|]. split.
  - intros w c Hok.
    destruct (resolve_ok_inversion h p mt1 ct1 cn1 w c Hok)
      as (m & i & name & Himp & Hnth & Hname & _ & _).
    exists m, name. rewrite <- Hmt, <- Hct, <- Hcn.
    split; [exact Himp|]. split; [|exact Hname].
    apply (nth_error_In _ i). exact Hnth.
  - intros w m0 m name o H0 H1 Hmem Hname.
    rewrite Hsame.
    pose proof (resolve_member_found h p mt2 ct2 cn2 w m0 m name o H0 H1 Hmem Hname)
      as Hok.
    destruct (result_of (get_model_component_class h p mt2 ct2 cn2) w) as [c|e] eqn:Hr;
      [|discriminate Hok].
    destruct (resolve_ok_inversion h p mt2 ct2 cn2 w c Hr)
      as (m' & i & name' & Himp & Hnth & Hlow & _ & _).
    rewrite H1 in Himp. injection Himp as <-.
    exists c, name'. split; [reflexivity|]. split; [|exact Hlow].
    apply (nth_error_In _ i). exact Hnth.
Qed.

Lemma resolve_case_insensitive_witness :
  get_model_component_class demo_host "demo" "MLP" "Model" "mlp"
  = get_model_component_class demo_host "demo" "mlp" "model" "MLP" /\
  result_of (get_model_component_class demo_host "demo" "MLP" "Model" "mlp") demo_world
  = Ok cls_MLP /\
  exists c name',
    result_of (get_model_component_class demo_host "demo" "Mlp" "MODEL" "mlp")
      demo_world = Ok c /\
    In (name', c) [ ("MLP", cls_MLP); ("nn", PyValue "torch.nn" (Some "torch.nn")) ] /\
    lower name' = lower "mLP".
Proof.
  split; [|split].
  - apply (resolve_case_insensitive demo_host "demo" "MLP" "mlp" "Model" "model"
             "mlp" "MLP"); reflexivity.
  - reflexivity.
  - apply (proj2 (proj2 (resolve_case_insensitive demo_host "demo" "Mlp" "mlp"
                           "MODEL" "model" "mlp" "mLP" eq_refl eq_refl eq_refl))
             demo_world
             {| mod_name := "demo.models.mlp"; mod_members := [] |}
             {| mod_name := "demo.models.mlp.model";
                mod_members := [ ("MLP", cls_MLP);
                                 ("nn", PyValue "torch.nn" (Some "torch.nn")) ] |}
             "MLP" cls_MLP).
    + reflexivity.
    + reflexivity.
    + left. reflexivity.
    + reflexivity.
Defined.

(** C10: a successful resolution returns the member of the component
    submodule that is stored under its declared name: the first member whose
    lower-cased name is the lower-cased component name, fetched with
    [getattr] under the name as declared.  The derived lookups resolve the
    model under [model] with the model type as name ([get_model_class] runs
    exactly that resolution, hands on its error, and returns its component
    after the base-class walk, with a warning when the walk answers
    [False]), the trainer under [trainer] with the model type followed by
    [trainer], and the parameter schema under [config] with the model type
    followed by [parameters]. *)
Theorem resolve_returns_declared_member (h : host) (p mt ct cn : string) (w : world) :
  (forall c,
     result_of (get_model_component_class h p mt ct cn) w = Ok c ->
     exists m i name,
       import_module h (p +:+ ".models." +:+ lower mt +:+ "." +:+ lower ct) = Ok m /\
       nth_error (mod_members m) i = Some (name, c) /\
       lower name = lower cn /\
       (forall j n' o', (j < i)%nat -> nth_error (mod_members m) j = Some (n', o') ->
                        lower n' <> lower cn) /\
       module_getattr (mod_members m) name = Ok c) /\
  (forall c,
     result_of (get_model_class h p mt) w = Ok c ->
     result_of (get_model_component_class h p mt "model" mt) w = Ok c) /\
  get_model_class h p mt w =
    match get_model_component_class h p mt "model" mt w with
    | (w1, Ok c) =>
        match search_for_pytorch c with
        | Ok true => (w1, Ok c)
        | Ok false =>
            ({| files := files w1; log := log w1 ++ [WarnNotPytorchModule mt] |}, Ok c)
        | Raise e => (w1, Raise e)
        end
    | (w1, Raise e) => (w1, Raise e)
    end /\
  get_model_trainer h p mt
    = get_model_component_class h p mt "trainer" (mt +:+ "trainer") /\
  get_model_parameters h p mt
    = get_model_component_class h p mt "config" (mt +:+ "parameters").
Proof.
  split; [|split; [|split; [|split; reflexivity]]].
  - intros c. apply resolve_ok_inversion.
  - intros c. unfold get_model_class, result_of, bind.
    destruct (get_model_component_class h p mt "model" mt w) as [w1 [c1|e]];
      [|discriminate].
    unfold lift. destruct (search_for_pytorch c1) as [b|e]; [|discriminate].
    destruct (negb b); cbn; intros Hc; injection Hc as ->; reflexivity.
  - unfold get_model_class, bind, lift.
    destruct (get_model_component_class h p mt "model" mt w) as [w1 [c1|e]];
      [|reflexivity].
    destruct (search_for_pytorch c1) as [[]|e]; reflexivity.
Qed.

Lemma resolve_returns_declared_member_witness :
  result_of (get_model_component_class demo_host "demo" "mlp" "TRAINER" "mlptrainer")
    demo_world = Ok cls_MLPTrainer /\
  (exists m i name,
     import_module demo_host ("demo" +:+ ".models." +:+ lower "mlp" +:+ "."
                              +:+ lower "TRAINER") = Ok m /\
     nth_error (mod_members m) i = Some (name, cls_MLPTrainer) /\
     lower name = lower "mlptrainer" /\
     module_getattr (mod_members m) name = Ok cls_MLPTrainer) /\
  get_model_class demo_host "demo" "MLP" demo_world = (demo_world, Ok cls_MLP) /\
  result_of (get_model_component_class demo_host "demo" "MLP" "model" "MLP") demo_world
    = Ok cls_MLP.
Proof.
  split; [reflexivity|]. split; [|split].
  - destruct (proj1 (resolve_returns_declared_member demo_host "demo" "mlp" "TRAINER"
                       "mlptrainer" demo_world) cls_MLPTrainer eq_refl)
      as (m & i & name & Himp & Hnth & Hname & _ & Hget).
    exists m, i, name. repeat split; assumption.
  - rewrite (proj1 (proj2 (proj2 (resolve_returns_declared_member demo_host "demo"
                                    "MLP" "model" "MLP" demo_world)))).
    reflexivity.
  - apply (proj1 (proj2 (resolve_returns_declared_member demo_host "demo" "MLP"
                           "model" "MLP" demo_world)) cls_MLP).
    reflexivity.
Defined.

(** * Further properties *)

(** ** Strings and paths *)

Lemma append_inj_l (a b c : string) : a +:+ b = a +:+ c -> b = c.
Proof.
  induction a as [|x a IH]; intros H; [exact H|].
  change (String x (a +:+ b) = String x (a +:+ c)) in H.
  injection H as H. exact (IH H).
Qed.

Lemma list_ascii_of_string_app (a b : string) :
  list_ascii_of_string (a +:+ b) = list_ascii_of_string a ++ list_ascii_of_string b.
Proof.
  induction a as [|x a IH]; [reflexivity|].
  change (String x a +:+ b) with (String x (a +:+ b)).
  cbn [list_ascii_of_string app]. rewrite IH. reflexivity.
Qed.

Lemma list_ascii_of_string_inj (a b : string) :
  list_ascii_of_string a = list_ascii_of_string b -> a = b.
Proof.
  intros H. rewrite <- (string_of_list_ascii_of_string a),
    <- (string_of_list_ascii_of_string b), H. reflexivity.
Qed.

Lemma append_inj_r (a b s : string) : a +:+ s = b +:+ s -> a = b.
Proof.
  intros H. apply list_ascii_of_string_inj.
  apply (f_equal list_ascii_of_string) in H.
  rewrite !list_ascii_of_string_app in H.
  exact (app_inv_tail _ _ _ H).
Qed.

Lemma append_length (a b : string) :
  String.length (a +:+ b) = String.length a + String.length b.
Proof.
  induction a as [|x a IH]; [reflexivity|].
  change (String x a +:+ b) with (String x (a +:+ b)).
  cbn [String.length]. rewrite IH. reflexivity.
Qed.

Lemma append_assoc (a b c : string) : (a +:+ b) +:+ c = a +:+ (b +:+ c).
Proof.
  induction a as [|x a IH]; [reflexivity|].
  change ((String x a +:+ b) +:+ c) with (String x ((a +:+ b) +:+ c)).
  rewrite IH. reflexivity.
Qed.

Lemma list_ascii_of_rev_app (s1 s2 : string) :
  list_ascii_of_string (String.rev_app s1 s2)
  = List.rev (list_ascii_of_string s1) ++ list_ascii_of_string s2.
Proof.
  revert s2. induction s1 as [|x s1 IH]; intros s2; cbn; [reflexivity|].
  rewrite IH. cbn. rewrite <- app_assoc. reflexivity.
Qed.

Lemma list_ascii_of_rev (s : string) :
  list_ascii_of_string (String.rev s) = List.rev (list_ascii_of_string s).
Proof. unfold String.rev. rewrite list_ascii_of_rev_app. cbn. apply app_nil_r. Qed.

Lemma prefix_slash (c : ascii) (r : string) :
  String.prefix "/" (String c r) = Ascii.eqb c slash.
Proof.
  cbn [String.prefix].
  destruct (ascii_dec "/" c) as [Heq|Hne].
  - subst c. destruct r; reflexivity.
  - symmetry. apply Ascii.eqb_neq. unfold slash. congruence.
Qed.

(** A string ends with a slash exactly when its last character is one. *)
Lemma endswith_slash_rev (s : string) :
  endswith s "/" =
  match List.rev (list_ascii_of_string s) with
  | c :: _ => Ascii.eqb c slash
  | [] => false
  end.
Proof.
  unfold endswith. rewrite <- list_ascii_of_rev.
  change (String.rev "/") with "/".
  destruct (String.rev s) as [|c r]; [reflexivity|].
  rewrite prefix_slash. reflexivity.
Qed.

Lemma startswith_slash_head (s : string) :
  startswith s "/" =
  match s with
  | String c _ => Ascii.eqb c slash
  | EmptyString => false
  end.
Proof.
  unfold startswith. destruct s as [|c s]; [reflexivity|]. apply prefix_slash.
Qed.

Lemma no_slash_startswith (s : string) : no_slash s = true -> startswith s "/" = false.
Proof.
  rewrite startswith_slash_head. destruct s as [|c s]; [reflexivity|].
  cbn. intros H. apply andb_prop in H as [H _]. apply negb_true_iff in H. exact H.
Qed.

(** Joining a relative name puts the same prefix in front of it. *)
Lemma os_path_join_relative (a b : string) :
  startswith b "/" = false -> os_path_join a b = join_prefix a +:+ b.
Proof.
  intros Hb. unfold os_path_join, join_prefix. rewrite Hb.
  destruct (String.eqb a "" || endswith a "/"); [reflexivity|].
  rewrite append_assoc. reflexivity.
Qed.

Lemma os_path_join_inj (a b c : string) :
  startswith b "/" = false -> startswith c "/" = false ->
  os_path_join a b = os_path_join a c -> b = c.
Proof.
  intros Hb Hc. rewrite !os_path_join_relative by assumption. apply append_inj_l.
Qed.

Lemma no_slash_forallb (s : string) :
  no_slash s = forallb (fun c => negb (Ascii.eqb c slash)) (list_ascii_of_string s).
Proof. induction s as [|c s IH]; cbn; [reflexivity | now rewrite IH]. Qed.

Lemma forallb_rev_eq {A} (f : A -> bool) (l : list A) :
  forallb f (List.rev l) = forallb f l.
Proof.
  induction l as [|x l IH]; [reflexivity|].
  cbn [List.rev forallb]. rewrite forallb_app, IH. cbn. rewrite andb_true_r.
  apply andb_comm.
Qed.

Lemma rsplit_tail_app (t r : list ascii) :
  forallb (fun c => negb (Ascii.eqb c slash)) t = true ->
  rsplit_tail (t ++ slash :: r) = (t, slash :: r).
Proof.
  induction t as [|c t IH]; cbn [app forallb]; intros H.
  - reflexivity.
  - apply andb_prop in H as [Hc Ht]. apply negb_true_iff in Hc.
    cbn [rsplit_tail]. rewrite Hc, (IH Ht). reflexivity.
Qed.

(** [split] undoes [join] when the directory is not empty and does not end
    with a slash, and the name is one non-empty component. *)
Lemma os_path_split_join (d name : string) :
  String.eqb d "" = false -> endswith d "/" = false ->
  no_slash name = true ->
  os_path_split (os_path_join d name) = (d, name).
Proof.
  intros Hd Hend Hname.
  rewrite (os_path_join_relative d name (no_slash_startswith name Hname)).
  unfold join_prefix. rewrite Hd, Hend. cbn [orb].
  unfold os_path_split.
  rewrite !list_ascii_of_string_app. cbn [list_ascii_of_string app].
  rewrite <- app_assoc. cbn [app].
  rewrite rev_app_distr. cbn [List.rev]. rewrite <- app_assoc. cbn [app].
  change ("/"%char) with slash.
  rewrite rsplit_tail_app
    by (rewrite forallb_rev_eq, <- no_slash_forallb; exact Hname).
  rewrite endswith_slash_rev in Hend.
  destruct (List.rev (list_ascii_of_string d)) as [|c r] eqn:Hrev.
  - exfalso. apply (f_equal (@List.rev ascii)) in Hrev.
    rewrite rev_involutive in Hrev. cbn in Hrev.
    apply (f_equal string_of_list_ascii) in Hrev.
    rewrite string_of_list_ascii_of_string in Hrev. subst d. discriminate Hd.
  - cbn [forallb drop_slashes]. rewrite Ascii.eqb_refl.
    rewrite (Ascii.eqb_sym slash c), Hend. cbn [andb].
    rewrite <- Hrev, !rev_involutive, !string_of_list_ascii_of_string.
    reflexivity.
Qed.

Lemma join_prefix_length (a : string) : String.length a <= String.length (join_prefix a).
Proof.
  unfold join_prefix. destruct (String.eqb a "" || endswith a "/"); [lia|].
  rewrite append_length. lia.
Qed.

Lemma append_nonempty (a s : string) :
  String.eqb s "" = false -> String.eqb (a +:+ s) "" = false.
Proof.
  intros Hs. apply String.eqb_neq. intros Heq.
  apply (f_equal String.length) in Heq. rewrite append_length in Heq.
  apply eqb_empty_false_length in Hs. cbn in Heq. lia.
Qed.

(** A string whose last part does not end with a slash does not end with
    one. *)
Lemma endswith_slash_app (a s : string) :
  String.eqb s "" = false -> endswith s "/" = false -> endswith (a +:+ s) "/" = false.
Proof.
  intros Hs Hend. rewrite endswith_slash_rev in *.
  rewrite list_ascii_of_string_app, rev_app_distr.
  destruct (List.rev (list_ascii_of_string s)) as [|c r] eqn:Hrev.
  - exfalso. apply (f_equal (@List.rev ascii)) in Hrev.
    rewrite rev_involutive in Hrev. cbn in Hrev.
    apply (f_equal string_of_list_ascii) in Hrev.
    rewrite string_of_list_ascii_of_string in Hrev. subst s. discriminate Hs.
  - exact Hend.
Qed.

(** ** The layout *)

Lemma layout_path_ne_root (root suffix : string) :
  String.eqb suffix "" = false -> startswith suffix "/" = false ->
  os_path_join root suffix <> root.
Proof.
  intros Hne Hrel Heq. rewrite (os_path_join_relative root suffix Hrel) in Heq.
  apply (f_equal String.length) in Heq. rewrite append_length in Heq.
  pose proof (join_prefix_length root). apply eqb_empty_false_length in Hne. lia.
Qed.

(** X1: for every root, the five paths of the layout are pairwise distinct
    and none of them is the root itself. *)
Theorem layout_paths_distinct (pg : PathGenerator.t) :
  List.NoDup [ PathGenerator.config_path pg; PathGenerator.checkpoint_path pg;
          PathGenerator.results_path pg; PathGenerator.tensorboard_path pg;
          PathGenerator.figures_path pg ] /\
  Forall (fun p => p <> PathGenerator.root pg)
    [ PathGenerator.config_path pg; PathGenerator.checkpoint_path pg;
      PathGenerator.results_path pg; PathGenerator.tensorboard_path pg;
      PathGenerator.figures_path pg ].
Proof.
  unfold PathGenerator.config_path, PathGenerator.checkpoint_path,
    PathGenerator.results_path, PathGenerator.tensorboard_path,
    PathGenerator.figures_path, PathGenerator._concat_root_and_suffix.
  split.
  - rewrite !os_path_join_relative by reflexivity.
    repeat (constructor;
            [ cbn [In]; intros Hin;
              repeat (destruct Hin as [Hin|Hin];
                      [apply append_inj_l in Hin; discriminate Hin|]);
              exact Hin
            | ]).
    constructor.
  - repeat (constructor; [apply layout_path_ne_root; reflexivity|]).
    constructor.
Qed.

(** ** The vocabulary of categories *)

Lemma eqb_append_r (a b s : string) : String.eqb (a +:+ s) (b +:+ s) = String.eqb a b.
Proof.
  destruct (String.eqb a b) eqn:Hab.
  - apply String.eqb_eq in Hab. subst b. apply String.eqb_refl.
  - apply String.eqb_neq. intros Heq. apply append_inj_r in Heq.
    apply String.eqb_neq in Hab. exact (Hab Heq).
Qed.

Lemma get_path_by_name_cases (pg : PathGenerator.t) (name : string) :
  PathGenerator.get_path_by_name pg name =
  if String.eqb "config" name then Ok (PathGenerator.config_path pg)
  else if String.eqb "checkpoint" name then Ok (PathGenerator.checkpoint_path pg)
  else if String.eqb "results" name then Ok (PathGenerator.results_path pg)
  else if String.eqb "tensorboard" name then Ok (PathGenerator.tensorboard_path pg)
  else if String.eqb "figures" name then Ok (PathGenerator.figures_path pg)
  else Raise AttributeError.
Proof.
  unfold PathGenerator.get_path_by_name, PathGenerator.getattr.
  change (str_join "_" [name; "path"]) with (name +:+ "_path").
  unfold PathGenerator.attributes. cbn [PathGenerator.lookup_attribute].
  assert (Hroot : String.eqb "root" (name +:+ "_path") = false).
  { apply String.eqb_neq. intros Heq. apply (f_equal String.length) in Heq.
    rewrite append_length in Heq. cbn in Heq. lia. }
  rewrite Hroot.
  change "config_path" with ("config" +:+ "_path").
  change "checkpoint_path" with ("checkpoint" +:+ "_path").
  change "results_path" with ("results" +:+ "_path").
  change "tensorboard_path" with ("tensorboard" +:+ "_path").
  change "figures_path" with ("figures" +:+ "_path").
  rewrite !eqb_append_r.
  repeat (match goal with |- context [String.eqb ?k name] =>
            destruct (String.eqb k name); [reflexivity|] end).
  reflexivity.
Qed.

Lemma get_path_by_name_unknown (pg : PathGenerator.t) (name : string) :
  ~ In name ["config"; "checkpoint"; "results"; "tensorboard"; "figures"] ->
  PathGenerator.get_path_by_name pg name = Raise AttributeError.
Proof.
  intros Hnot. rewrite get_path_by_name_cases.
  repeat (match goal with |- context [String.eqb ?k name] =>
            let H := fresh "Heq" in
            destruct (String.eqb k name) eqn:H;
            [ apply String.eqb_eq in H; exfalso; apply Hnot; subst name;
              cbn; tauto | ] end).
  reflexivity.
Qed.

(** X2: [get_path_by_name] accepts exactly the five names [config],
    [checkpoint], [results], [tensorboard] and [figures], each mapped to its
    layout path, and raises [AttributeError] for every other name. *)
Theorem get_path_by_name_vocabulary (pg : PathGenerator.t) (name : string) :
  (is_ok (PathGenerator.get_path_by_name pg name) = true <->
   In name ["config"; "checkpoint"; "results"; "tensorboard"; "figures"]) /\
  (is_ok (PathGenerator.get_path_by_name pg name) = false ->
   PathGenerator.get_path_by_name pg name = Raise AttributeError) /\
  PathGenerator.get_path_by_name pg "config" = Ok (PathGenerator.config_path pg) /\
  PathGenerator.get_path_by_name pg "checkpoint" = Ok (PathGenerator.checkpoint_path pg) /\
  PathGenerator.get_path_by_name pg "results" = Ok (PathGenerator.results_path pg) /\
  PathGenerator.get_path_by_name pg "tensorboard"
    = Ok (PathGenerator.tensorboard_path pg) /\
  PathGenerator.get_path_by_name pg "figures" = Ok (PathGenerator.figures_path pg).
Proof.
  split; [|split; [|repeat split]].
  - split.
    + intros Hok.
      destruct (in_dec string_dec name
                  ["config"; "checkpoint"; "results"; "tensorboard"; "figures"])
        as [Hin|Hnot]; [exact Hin|].
      rewrite (get_path_by_name_unknown pg name Hnot) in Hok. discriminate Hok.
    + cbn [In]. intros [<-|[<-|[<-|[<-|[<-|[]]]]]]; reflexivity.
  - intros Hfail.
    destruct (in_dec string_dec name
                ["config"; "checkpoint"; "results"; "tensorboard"; "figures"])
      as [Hin|Hnot].
    + exfalso. revert Hfail. cbn [In] in Hin.
      destruct Hin as [<-|[<-|[<-|[<-|[<-|[]]]]]]; discriminate.
    + apply get_path_by_name_unknown. exact Hnot.
Qed.

Lemma get_path_by_name_vocabulary_witness :
  PathGenerator.get_path_by_name (PathGenerator.new demo_path) "checkpoints"
  = Raise AttributeError.
Proof.
  apply (proj1 (proj2 (get_path_by_name_vocabulary (PathGenerator.new demo_path)
                         "checkpoints"))).
  reflexivity.
Defined.

(** ** Persistence, continued *)

Lemma results_path_clean (pg : PathGenerator.t) :
  String.eqb (PathGenerator.results_path pg) "" = false /\
  endswith (PathGenerator.results_path pg) "/" = false.
Proof.
  unfold PathGenerator.results_path, PathGenerator._concat_root_and_suffix.
  rewrite os_path_join_relative by reflexivity. split.
  - apply append_nonempty. reflexivity.
  - apply endswith_slash_app; reflexivity.
Qed.

(** The directory that holds an entry of the results is the results
    directory, when the name is a single component. *)
Lemma parent_error_results_entry (pg : PathGenerator.t) (name : string)
    (fs : gmap string node) :
  no_slash name = true ->
  parent_error fs (os_path_join (PathGenerator.results_path pg) name) =
  match fs !! PathGenerator.results_path pg with
  | Some Dir => None
  | Some (File _) => Some NotADirectoryError
  | None => Some FileNotFoundError
  end.
Proof.
  intros Hname. destruct (results_path_clean pg) as [Hne Hend].
  unfold parent_error, os_path_dirname.
  rewrite (os_path_split_join _ name Hne Hend Hname). cbn [fst]. rewrite Hne.
  rewrite (os_path_join_relative _ name (no_slash_startswith name Hname)).
  unfold join_prefix. rewrite Hne, Hend. cbn [orb].
  rewrite append_assoc.
  rewrite (append_nonempty (PathGenerator.results_path pg) ("/" +:+ name))
    by reflexivity.
  reflexivity.
Qed.

Lemma write_file_other (p q data : string) (w : world) :
  p <> q -> files (fst (write_file p data w)) !! q = files w !! q.
Proof.
  intros Hpq. unfold write_file.
  destruct (files w !! p) as [[|old]|]; cbn [fst]; try reflexivity.
  - cbn [set_node files]. apply lookup_insert_ne. exact Hpq.
  - destruct (parent_error (files w) p); cbn [fst set_node files]; [reflexivity|].
    apply lookup_insert_ne. exact Hpq.
Qed.

Lemma write_file_ok (p data : string) (w : world) :
  snd (write_file p data w) = Ok tt ->
  write_file p data w = (set_node p (File data) w, Ok tt).
Proof.
  unfold write_file.
  destruct (files w !! p) as [[|old]|]; cbn [snd]; try discriminate; try reflexivity.
  destruct (parent_error (files w) p); cbn [snd]; [discriminate | reflexivity].
Qed.

Section PersistenceMore.

Context (h : host) (self : Experiment.t).

Local Abbreviation results_dir :=
  (PathGenerator.results_path (Experiment.paths self)).

Lemma results_save_run (blob : pyval) (name : string) (w : world) :
  Experiment._save_element h self blob "results" name w =
  write_file (os_path_join results_dir name) (torch_save h blob) w.
Proof. reflexivity. Qed.

Lemma results_load_run (name : string) (w : world) :
  Experiment._load_element h self "results" name w =
  match read_file (os_path_join results_dir name) w with
  | (w', Ok data) => (w', torch_load h data)
  | (w', Raise e) => (w', Raise e)
  end.
Proof. reflexivity. Qed.

(** X3: for an element name outside the vocabulary of [get_path_by_name],
    the existence check, the load and the save all raise [AttributeError],
    log one error naming the element, and leave the file system as it
    was. *)
Theorem unknown_element_raises
    (element_name name : string) (blob : pyval) (w : world) :
  ~ In element_name ["config"; "checkpoint"; "results"; "tensorboard"; "figures"] ->
  let failed := ({| files := files w;
                    log := log w ++ [ErrElementNotFound element_name] |},
                 @Raise unit AttributeError) in
  Experiment._is_element_available self element_name name w
    = (fst failed, Raise AttributeError) /\
  Experiment._load_element h self element_name name w
    = (fst failed, Raise AttributeError) /\
  Experiment._save_element h self blob element_name name w = failed.
Proof.
  intros Hnot failed.
  assert (Hpath : Experiment._create_element_path self element_name name w
                  = (fst failed, Raise AttributeError)).
  { unfold Experiment._create_element_path, bind, try_except, lift.
    rewrite (get_path_by_name_unknown _ _ Hnot). reflexivity. }
  unfold Experiment._is_element_available, Experiment._load_element,
    Experiment._save_element, bind.
  rewrite Hpath. repeat split.
Qed.

(** X4: the existence check and the load never change the file system,
    whatever the element name and the name, and whether they return or
    raise. *)
Theorem element_reads_preserve_files (element_name name : string) (w : world) :
  files (world_after (Experiment._is_element_available self element_name name) w)
    = files w /\
  files (world_after (Experiment._load_element h self element_name name) w)
    = files w.
Proof.
  unfold Experiment._is_element_available, Experiment._load_element,
    Experiment._create_element_path, world_after, bind, try_except, lift.
  destruct (PathGenerator.get_path_by_name (Experiment.paths self) element_name)
    as [p|e]; cbn.
  - split; [reflexivity|].
    unfold read_file.
    destruct (files w !! os_path_join p name) as [[|data]|]; cbn; try reflexivity.
    destruct (parent_error (files w) (os_path_join p name)) as [[]|]; reflexivity.
  - destruct (is_AttributeError e); split; reflexivity.
Qed.

(** X5: for the results, the existence check never raises and changes
    nothing; it answers [true] exactly when a regular file is stored under
    the name, so a missing directory, a missing file and a directory of that
    name all give [false]. *)
Theorem results_exists_reflects_files (name : string) (w : world) :
  exists b : bool,
    Experiment.is_results_available self name w = (w, Ok b) /\
    (b = true <-> exists data, files w !! os_path_join results_dir name
                               = Some (File data)).
Proof.
  unfold Experiment.is_results_available. rewrite results_exists_total.
  destruct (files w !! os_path_join results_dir name) as [[|data]|].
  - exists false. split; [reflexivity|]. split; [discriminate|].
    intros [data Hd]. discriminate Hd.
  - exists true. split; [reflexivity|]. split; [eauto | reflexivity].
  - exists false. split; [reflexivity|]. split; [discriminate|].
    intros [data Hd]. discriminate Hd.
Qed.

(** X6: a result that was saved is there: after a save that succeeds, the
    existence check answers [true] and the load returns the blob that was
    saved (given that the serializer of the host round-trips it). *)
Theorem results_save_then_load (blob : pyval) (name : string) (w : world) :
  torch_load h (torch_save h blob) = Ok blob ->
  result_of (Experiment.save_results h self blob name) w = Ok tt ->
  let w' := world_after (Experiment.save_results h self blob name) w in
  result_of (Experiment.is_results_available self name) w' = Ok true /\
  result_of (Experiment.load_results h self name) w' = Ok blob.
Proof.
  intros Hcodec Hsave.
  exact (results_save_load_roundtrip h self blob name w Hcodec Hsave).
Qed.

(** X7: last writer wins.  Once a save of a result has succeeded, a second
    save under the same name succeeds too, and afterwards the load returns
    the second blob (given that the serializer round-trips it). *)
Theorem results_last_writer_wins (blob1 blob2 : pyval) (name : string) (w : world) :
  torch_load h (torch_save h blob2) = Ok blob2 ->
  result_of (Experiment.save_results h self blob1 name) w = Ok tt ->
  let w1 := world_after (Experiment.save_results h self blob1 name) w in
  let w2 := world_after (Experiment.save_results h self blob2 name) w1 in
  result_of (Experiment.save_results h self blob2 name) w1 = Ok tt /\
  result_of (Experiment.is_results_available self name) w2 = Ok true /\
  result_of (Experiment.load_results h self name) w2 = Ok blob2.
Proof.
  intros Hcodec Hsave1 w1 w2.
  set (p := os_path_join results_dir name).
  assert (Hw1 : files w1 !! p = Some (File (torch_save h blob1))).
  { subst w1. unfold Experiment.save_results, world_after, result_of in *.
    rewrite results_save_run in *. fold p in Hsave1 |- *.
    rewrite (write_file_ok _ _ _ Hsave1). apply lookup_insert_eq. }
  assert (Hrun2 : Experiment.save_results h self blob2 name w1
                  = (set_node p (File (torch_save h blob2)) w1, Ok tt)).
  { unfold Experiment.save_results.
    apply (results_save_overwrites h self blob2 name (torch_save h blob1) w1).
    exact Hw1. }
  assert (Hw2 : files w2 !! p = Some (File (torch_save h blob2))).
  { subst w2. unfold world_after. rewrite Hrun2. apply lookup_insert_eq. }
  split; [unfold result_of; rewrite Hrun2; reflexivity|].
  split.
  - unfold Experiment.is_results_available, result_of.
    rewrite results_exists_total. fold p. rewrite Hw2. reflexivity.
  - unfold Experiment.load_results, result_of. rewrite results_load_run. fold p.
    unfold read_file. rewrite Hw2. exact Hcodec.
Qed.

Lemma plain_name_no_slash (s : string) : plain_name s = true -> no_slash s = true.
Proof.
  unfold plain_name. intros H.
  apply andb_prop in H as [H _]. apply andb_prop in H as [H _].
  apply andb_prop in H as [H _]. exact H.
Qed.

(** X8: saving a result under one name leaves every other name alone: for
    two different names that each denote an entry of their own in the
    results directory (one path component, not empty, not [.] or [..]), the
    existence check and the load of the other name give the same answer
    after the save as before it. *)
Theorem results_save_frame (blob : pyval) (name other : string) (w : world) :
  plain_name name = true ->
  plain_name other = true ->
  name <> other ->
  let w' := world_after (Experiment.save_results h self blob name) w in
  result_of (Experiment.is_results_available self other) w'
    = result_of (Experiment.is_results_available self other) w /\
  result_of (Experiment.load_results h self other) w'
    = result_of (Experiment.load_results h self other) w.
Proof.
  intros Hplain Hplain' Hne w'.
  pose proof (no_slash_startswith _ (plain_name_no_slash _ Hplain)) as Hname.
  pose proof (plain_name_no_slash _ Hplain') as Hother.
  set (p := os_path_join results_dir name).
  set (q := os_path_join results_dir other).
  assert (Hpq : p <> q).
  { intros Heq. apply Hne.
    exact (os_path_join_inj _ _ _ Hname (no_slash_startswith _ Hother) Heq). }
  assert (Hpd : p <> results_dir).
  { subst p. rewrite (os_path_join_relative _ _ Hname).
    destruct (results_path_clean (Experiment.paths self)) as [Hne' Hend].
    unfold join_prefix. rewrite Hne', Hend. cbn [orb].
    intros Heq. apply (f_equal String.length) in Heq.
    rewrite !append_length in Heq. cbn in Heq. lia. }
  assert (Hfiles : forall x, p <> x -> files w' !! x = files w !! x).
  { intros x Hx. subst w'. unfold Experiment.save_results, world_after.
    rewrite results_save_run. fold p. apply write_file_other. exact Hx. }
  split.
  - unfold Experiment.is_results_available, result_of.
    rewrite !results_exists_total. fold q.
    rewrite (Hfiles q Hpq). reflexivity.
  - unfold Experiment.load_results, result_of. rewrite !results_load_run. fold q.
    unfold read_file. rewrite (Hfiles q Hpq).
    subst q.
    rewrite !(parent_error_results_entry _ other _ Hother).
    rewrite (Hfiles results_dir Hpd).
    destruct (files w !! os_path_join results_dir other) as [[|data]|];
      try reflexivity.
    destruct (files w !! results_dir) as [[|data]|]; reflexivity.
Qed.

(** X9: saving a result when the results directory does not exist (and
    nothing is stored under the entry's path) does not succeed and leaves
    the file system as it was: the directory is not created on demand. *)
Theorem results_save_missing_directory (blob : pyval) (name : string) (w : world) :
  no_slash name = true ->
  files w !! results_dir = None ->
  files w !! os_path_join results_dir name = None ->
  is_ok (result_of (Experiment.save_results h self blob name) w) = false /\
  files (world_after (Experiment.save_results h self blob name) w) = files w.
Proof.
  intros Hname Hdir Hentry.
  unfold Experiment.save_results, result_of, world_after. rewrite results_save_run.
  unfold write_file. rewrite Hentry.
  rewrite (parent_error_results_entry _ name _ Hname), Hdir.
  split; reflexivity.
Qed.

(** X10: with the results directory in place, loading a name that denotes an
    entry of its own (one path component, not empty, not [.] or [..]) and
    is not stored raises [FileNotFoundError] and changes nothing. *)
Theorem results_load_missing_entry (name : string) (w : world) :
  plain_name name = true ->
  files w !! results_dir = Some Dir ->
  files w !! os_path_join results_dir name = None ->
  Experiment.load_results h self name w = (w, Raise FileNotFoundError).
Proof.
  intros Hname Hdir Hentry.
  unfold Experiment.load_results. rewrite results_load_run.
  unfold read_file. rewrite Hentry.
  rewrite (parent_error_results_entry _ name _ (plain_name_no_slash _ Hname)), Hdir.
  reflexivity.
Qed.

End PersistenceMore.

Lemma results_save_frame_witness :
  let w' := world_after (Experiment.save_results demo_host demo_experiment demo_blob
                           "e2") populated_world in
  result_of (Experiment.load_results demo_host demo_experiment "e1") w' = Ok demo_blob.
Proof.
  cbv zeta.
  rewrite (proj2 (results_save_frame demo_host demo_experiment demo_blob "e2" "e1"
                    populated_world eq_refl eq_refl ltac:(discriminate))).
  vm_compute. reflexivity.
Defined.

Lemma unknown_element_raises_witness :
  result_of (Experiment._save_element demo_host demo_experiment demo_blob "logs" "e1")
    populated_world = Raise AttributeError.
Proof.
  unfold result_of.
  rewrite (proj2 (proj2 (unknown_element_raises demo_host demo_experiment
                           "logs" "e1" demo_blob populated_world
                           ltac:(cbn; intuition discriminate)))).
  reflexivity.
Defined.

Lemma results_save_then_load_witness :
  let w' := world_after (Experiment.save_results demo_host demo_experiment demo_blob
                           "e2") populated_world in
  result_of (Experiment.is_results_available demo_experiment "e2") w' = Ok true /\
  result_of (Experiment.load_results demo_host demo_experiment "e2") w' = Ok demo_blob.
Proof.
  apply (results_save_then_load demo_host demo_experiment demo_blob "e2"
           populated_world).
  - reflexivity.
  - vm_compute. reflexivity.
Defined.

Lemma results_last_writer_wins_witness :
  let w1 := world_after (Experiment.save_results demo_host demo_experiment (PInt 0)
                           "e2") populated_world in
  let w2 := world_after (Experiment.save_results demo_host demo_experiment demo_blob
                           "e2") w1 in
  result_of (Experiment.save_results demo_host demo_experiment demo_blob "e2") w1
    = Ok tt /\
  result_of (Experiment.is_results_available demo_experiment "e2") w2 = Ok true /\
  result_of (Experiment.load_results demo_host demo_experiment "e2") w2 = Ok demo_blob.
Proof.
  apply (results_last_writer_wins demo_host demo_experiment (PInt 0) demo_blob "e2"
           populated_world).
  - reflexivity.
  - vm_compute. reflexivity.
Defined.

Lemma results_save_missing_directory_witness :
  is_ok (result_of (Experiment.save_results demo_host demo_experiment demo_blob "e1")
           taken_world) = false /\
  files (world_after (Experiment.save_results demo_host demo_experiment demo_blob "e1")
           taken_world) = files taken_world.
Proof.
  apply (results_save_missing_directory demo_host demo_experiment demo_blob "e1"
           taken_world).
  - reflexivity.
  - vm_compute. reflexivity.
  - vm_compute. reflexivity.
Defined.

Lemma results_load_missing_entry_witness :
  Experiment.load_results demo_host demo_experiment "e7" populated_world
  = (populated_world, Raise FileNotFoundError).
Proof.
  apply (results_load_missing_entry demo_host demo_experiment "e7" populated_world).
  - reflexivity.
  - vm_compute. reflexivity.
  - vm_compute. reflexivity.
Defined.

(** ** Creating an experiment, continued *)

Section Creation.

Context (h : host) (config : pydict) (outdir : string).

Lemma create_from_dict_no_key (w : world) :
  dict_get config "project" = None \/ dict_get config "model_type" = None ->
  Experiment.create_from_dict h config outdir w =
  ({| files := files w; log := log w ++ [InfoCreatingExperiment config] |},
   Raise KeyError).
Proof.
  intros Hmissing.
  unfold Experiment.create_from_dict, Experiment.generate_new_name, dict_getitem.
  unfold bind at 1. cbn [emit].
  unfold bind at 1. unfold bind at 1.
  destruct (dict_get config "project") as [p|] eqn:Hp.
  - destruct Hmissing as [Hm|Hm]; [discriminate Hm|].
    unfold bind at 1. rewrite Hm. reflexivity.
  - reflexivity.
Qed.

(** X11: a configuration without the key [project] or without the key
    [model_type] makes [create_from_dict] raise [KeyError] before it looks
    at the file system, which is left as it was. *)
Theorem create_from_dict_missing_key (w : world) :
  dict_get config "project" = None \/ dict_get config "model_type" = None ->
  result_of (Experiment.create_from_dict h config outdir) w = Raise KeyError /\
  files (world_after (Experiment.create_from_dict h config outdir) w) = files w.
Proof.
  intros Hmissing. unfold result_of, world_after.
  rewrite (create_from_dict_no_key w Hmissing). split; reflexivity.
Qed.

(** What [create_from_dict] does once the name is generated and the path is
    free, by the outcome of [os.mkdir]. *)
Lemma create_from_dict_free_path (w : world) (p m : pyval) :
  dict_get config "project" = Some p ->
  dict_get config "model_type" = Some m ->
  let path := os_path_join outdir
                (format_value h p +:+ "-" +:+ format_value h m +:+ "-"
                 +:+ strftime_localtime h) in
  let logged := {| files := files w;
                   log := log w ++ [InfoCreatingExperiment config] |} in
  files w !! path = None ->
  Experiment.create_from_dict h config outdir w =
  match parent_error (files w) path with
  | Some e => (logged, Raise e)
  | None => (set_node path Dir logged, Raise FrozenInstanceError)
  end.
Proof.
  intros Hp Hm path logged Hnone.
  unfold Experiment.create_from_dict.
  unfold bind at 1. cbn [emit].
  unfold bind at 1.
  rewrite (generate_new_name_ok h config p m _ Hp Hm). fold path.
  unfold bind at 1. unfold os_path_exists. cbn [files].
  rewrite bool_decide_false by (rewrite Hnone; intros [x Hx]; discriminate Hx).
  unfold bind at 1 2. unfold os_mkdir. cbn [files].
  rewrite Hnone. fold logged.
  destruct (parent_error (files w) path) as [e|]; [reflexivity|].
  unfold bind at 1. rewrite PathCreator_init_raises. reflexivity.
Qed.

Lemma create_from_dict_taken_path (w : world) (p m : pyval) :
  dict_get config "project" = Some p ->
  dict_get config "model_type" = Some m ->
  let path := os_path_join outdir
                (format_value h p +:+ "-" +:+ format_value h m +:+ "-"
                 +:+ strftime_localtime h) in
  is_Some (files w !! path) ->
  Experiment.create_from_dict h config outdir w =
  ({| files := files w;
      log := (log w ++ [InfoCreatingExperiment config]) ++ [ErrPathExists path] |},
   Raise FileExistsError).
Proof.
  intros Hp Hm path Hex.
  unfold Experiment.create_from_dict.
  unfold bind at 1. cbn [emit].
  unfold bind at 1.
  rewrite (generate_new_name_ok h config p m _ Hp Hm). fold path.
  unfold bind at 1. unfold os_path_exists. cbn [files].
  rewrite bool_decide_true by exact Hex.
  reflexivity.
Qed.

(** X12: [create_from_dict] uses [os.mkdir], so when the directory that is
    to hold the experiment is missing (or is a regular file) the error of
    [mkdir] comes out and nothing is created: [outdir] is never made on
    demand. *)
Theorem create_from_dict_mkdir_error (w : world) (p m : pyval) (e : exn) :
  dict_get config "project" = Some p ->
  dict_get config "model_type" = Some m ->
  let path := os_path_join outdir
                (format_value h p +:+ "-" +:+ format_value h m +:+ "-"
                 +:+ strftime_localtime h) in
  files w !! path = None ->
  parent_error (files w) path = Some e ->
  result_of (Experiment.create_from_dict h config outdir) w = Raise e /\
  files (world_after (Experiment.create_from_dict h config outdir) w) = files w.
Proof.
  intros Hp Hm path Hnone Hpe.
  unfold result_of, world_after.
  rewrite (create_from_dict_free_path w p m Hp Hm Hnone). fold path. rewrite Hpe.
  split; reflexivity.
Qed.

(** X13: the generated name has the resolution of the clock.  A second
    [create_from_dict] with the same configuration and output directory
    while the clock reads the same second finds the directory the first
    call made and raises [FileExistsError], changing nothing more. *)
Theorem create_from_dict_twice (w : world) (p m : pyval) :
  dict_get config "project" = Some p ->
  dict_get config "model_type" = Some m ->
  let path := os_path_join outdir
                (format_value h p +:+ "-" +:+ format_value h m +:+ "-"
                 +:+ strftime_localtime h) in
  files w !! path = None ->
  parent_error (files w) path = None ->
  let w1 := world_after (Experiment.create_from_dict h config outdir) w in
  result_of (Experiment.create_from_dict h config outdir) w1 = Raise FileExistsError /\
  files (world_after (Experiment.create_from_dict h config outdir) w1) = files w1.
Proof.
  intros Hp Hm path Hnone Hpe w1.
  assert (Hw1 : files w1 !! path = Some Dir).
  { subst w1. unfold world_after.
    rewrite (create_from_dict_free_path w p m Hp Hm Hnone). fold path. rewrite Hpe.
    cbn [fst set_node files]. apply lookup_insert_eq. }
  unfold result_of, world_after.
  rewrite (create_from_dict_taken_path w1 p m Hp Hm)
    by (fold path; rewrite Hw1; eexists; reflexivity).
  split; reflexivity.
Qed.

(** X14: [create_from_dict] never removes or replaces what is already in the
    file system: every entry present before the call is present, unchanged,
    after it, whatever the outcome. *)
Theorem create_from_dict_keeps_entries (w : world) (q : string) (n : node) :
  files w !! q = Some n ->
  files (world_after (Experiment.create_from_dict h config outdir) w) !! q = Some n.
Proof.
  intros Hq. unfold world_after.
  destruct (dict_get config "project") as [p|] eqn:Hp.
  2:{ rewrite (create_from_dict_no_key w (or_introl Hp)). exact Hq. }
  destruct (dict_get config "model_type") as [m|] eqn:Hm.
  2:{ rewrite (create_from_dict_no_key w (or_intror Hm)). exact Hq. }
  set (path := os_path_join outdir
                 (format_value h p +:+ "-" +:+ format_value h m +:+ "-"
                  +:+ strftime_localtime h)).
  destruct (files w !! path) as [x|] eqn:Hpath.
  - rewrite (create_from_dict_taken_path w p m Hp Hm)
      by (fold path; rewrite Hpath; eexists; reflexivity).
    exact Hq.
  - rewrite (create_from_dict_free_path w p m Hp Hm Hpath). fold path.
    destruct (parent_error (files w) path); [exact Hq|].
    cbn [fst set_node files]. rewrite lookup_insert_ne; [exact Hq|].
    intros Heq. subst q. rewrite Hpath in Hq. discriminate Hq.
Qed.

End Creation.

Lemma create_from_dict_missing_key_witness :
  result_of (Experiment.create_from_dict demo_host [("project", PStr "demo")]
               "/tmp/exp") demo_world = Raise KeyError /\
  files (world_after (Experiment.create_from_dict demo_host [("project", PStr "demo")]
                        "/tmp/exp") demo_world) = files demo_world.
Proof.
  apply (create_from_dict_missing_key demo_host [("project", PStr "demo")] "/tmp/exp"
           demo_world).
  right. reflexivity.
Defined.

Lemma create_from_dict_mkdir_error_witness :
  result_of (Experiment.create_from_dict demo_host demo_config "/data") demo_world
    = Raise FileNotFoundError /\
  files (world_after (Experiment.create_from_dict demo_host demo_config "/data")
           demo_world) = files demo_world.
Proof.
  apply (create_from_dict_mkdir_error demo_host demo_config "/data" demo_world
           (PStr "demo") (PStr "mlp") FileNotFoundError).
  - reflexivity.
  - reflexivity.
  - vm_compute. reflexivity.
  - vm_compute. reflexivity.
Defined.

Lemma create_from_dict_twice_witness :
  let w1 := world_after (Experiment.create_from_dict demo_host demo_config "/tmp/exp")
              demo_world in
  result_of (Experiment.create_from_dict demo_host demo_config "/tmp/exp") w1
    = Raise FileExistsError /\
  files (world_after (Experiment.create_from_dict demo_host demo_config "/tmp/exp") w1)
    = files w1.
Proof.
  apply (create_from_dict_twice demo_host demo_config "/tmp/exp" demo_world
           (PStr "demo") (PStr "mlp")).
  - reflexivity.
  - reflexivity.
  - vm_compute. reflexivity.
  - vm_compute. reflexivity.
Defined.

Lemma create_from_dict_keeps_entries_witness :
  files (world_after (Experiment.create_from_dict demo_host demo_config "/tmp/exp")
           populated_world) !! (demo_path +:+ "/results/e1") = Some (File "epoch=1").
Proof.
  apply (create_from_dict_keeps_entries demo_host demo_config "/tmp/exp"
           populated_world).
  vm_compute. reflexivity.
Defined.

(** ** Opening an experiment, continued *)

(** X15: [open] never changes the file system, whatever the path and
    whatever the outcome. *)
Theorem open_preserves_files (h : host) (path : string) (w : world) :
  files (world_after (Experiment.open h path) w) = files w.
Proof.
  unfold Experiment.open, world_after.
  unfold bind at 1. cbn [emit].
  unfold bind at 1. unfold read_file. cbn [files].
  destruct (files w !! path) as [[|data]|].
  - reflexivity.
  - unfold bind at 1. unfold lift at 1.
    destruct (yaml_safe_load h data) as [doc|e]; [|reflexivity].
    unfold bind at 1. unfold lift at 1.
    destruct (ExperimentConfig_dict h doc) as [config|e]; [|reflexivity].
    rewrite Experiment_init_raises. reflexivity.
  - destruct (parent_error (files w) path) as [[]|]; reflexivity.
Qed.

(** X16: the errors of [open] come out in the order of its steps: a path with
    no entry raises [FileNotFoundError] or [NotADirectoryError]; an error of
    the YAML loader on the bytes of the file is raised as it is; and so is
    an error of the configuration model on the loaded document. *)
Theorem open_error_order (h : host) (path : string) (w : world) :
  (files w !! path = None ->
   result_of (Experiment.open h path) w = Raise FileNotFoundError \/
   result_of (Experiment.open h path) w = Raise NotADirectoryError) /\
  (forall data e,
     files w !! path = Some (File data) ->
     yaml_safe_load h data = Raise e ->
     result_of (Experiment.open h path) w = Raise e) /\
  (forall data doc e,
     files w !! path = Some (File data) ->
     yaml_safe_load h data = Ok doc ->
     ExperimentConfig_dict h doc = Raise e ->
     result_of (Experiment.open h path) w = Raise e).
Proof.
  unfold Experiment.open, result_of.
  split; [|split].
  - intros Hnone.
    assert (Hrun : forall e,
               read_file path {| files := files w;
                                 log := log w ++ [InfoLoadingExperiment path] |}
               = ({| files := files w;
                     log := log w ++ [InfoLoadingExperiment path] |}, Raise e) ->
               snd (bind (emit (InfoLoadingExperiment path))
                      (fun _ => bind (read_file path)
                         (fun data => bind (lift (yaml_safe_load h data))
                            (fun doc => bind (lift (ExperimentConfig_dict h doc))
                               (fun config => Experiment.__init__ h path config))))
                      w) = Raise e).
    { intros e He. unfold bind at 1. cbn [emit]. unfold bind at 1. rewrite He.
      reflexivity. }
    unfold read_file in Hrun. cbn [files] in Hrun. rewrite Hnone in Hrun.
    destruct (parent_error (files w) path) as [[]|];
      first [ right; apply Hrun; reflexivity | left; apply Hrun; reflexivity ].
  - intros data e Hfile Hyaml. unfold bind at 1. cbn [emit].
    unfold bind at 1. unfold read_file. cbn [files]. rewrite Hfile.
    unfold bind at 1. unfold lift at 1. rewrite Hyaml. reflexivity.
  - intros data doc e Hfile Hyaml Hmodel. unfold bind at 1. cbn [emit].
    unfold bind at 1. unfold read_file. cbn [files]. rewrite Hfile.
    unfold bind at 1. unfold lift at 1. rewrite Hyaml.
    unfold bind at 1. unfold lift at 1. rewrite Hmodel. reflexivity.
Qed.

Lemma open_error_order_witness :
  result_of (Experiment.open demo_host "/tmp/exp/missing") demo_world
    = Raise FileNotFoundError \/
  result_of (Experiment.open demo_host "/tmp/exp/missing") demo_world
    = Raise NotADirectoryError.
Proof.
  apply (proj1 (open_error_order demo_host "/tmp/exp/missing" demo_world)).
  vm_compute. reflexivity.
Defined.

(** ** The methods of PathCreator *)

Lemma parent_error_child (d name : string) (fs : gmap string node) :
  String.eqb d "" = false -> endswith d "/" = false -> no_slash name = true ->
  parent_error fs (os_path_join d name) =
  match fs !! d with
  | Some Dir => None
  | Some (File _) => Some NotADirectoryError
  | None => Some FileNotFoundError
  end.
Proof.
  intros Hne Hend Hname.
  unfold parent_error, os_path_dirname.
  rewrite (os_path_split_join d name Hne Hend Hname). cbn [fst]. rewrite Hne.
  rewrite (os_path_join_relative d name (no_slash_startswith name Hname)).
  unfold join_prefix. rewrite Hne, Hend. cbn [orb].
  rewrite append_assoc.
  rewrite (append_nonempty d ("/" +:+ name)) by reflexivity.
  reflexivity.
Qed.

(** [os.makedirs(_, exist_ok=True)] on a child of an existing directory. *)
Lemma os_makedirs_child (d name : string) (w : world) :
  String.eqb d "" = false -> endswith d "/" = false ->
  no_slash name = true -> String.eqb name "" = false ->
  files w !! d = Some Dir ->
  os_makedirs (os_path_join d name) w =
  match files w !! os_path_join d name with
  | Some Dir => (w, Ok tt)
  | Some (File _) => (w, Raise FileExistsError)
  | None => (set_node (os_path_join d name) Dir w, Ok tt)
  end.
Proof.
  intros Hne Hend Hname Hname' Hd.
  unfold os_makedirs. cbn [os_makedirs_fuel].
  rewrite (os_path_split_join d name Hne Hend Hname). rewrite Hname'.
  unfold bind at 1. unfold os_path_exists at 1.
  rewrite bool_decide_true by (rewrite Hd; eexists; reflexivity).
  rewrite andb_false_r.
  unfold mkdir_exist_ok, try_except, os_mkdir.
  destruct (files w !! os_path_join d name) as [[|data]|] eqn:Hp.
  - cbn [is_OSError]. unfold bind, os_path_isdir. rewrite Hp. reflexivity.
  - cbn [is_OSError]. unfold bind, os_path_isdir. rewrite Hp. reflexivity.
  - rewrite (parent_error_child d name _ Hne Hend Hname), Hd. reflexivity.
Qed.

(** X17: under an existing root directory, [create_results_dir],
    [create_tensorboard_dir] and [create_figures_dir] make their directory
    of the layout when it is missing, succeed without any change when it is
    already there, and raise [FileExistsError] when a regular file has the
    name. *)
Theorem path_creator_makes_directories (pc : PathCreator.t) (w : world) :
  let pg := PathCreator.path_generator pc in
  String.eqb (PathGenerator.root pg) "" = false ->
  endswith (PathGenerator.root pg) "/" = false ->
  files w !! PathGenerator.root pg = Some Dir ->
  Forall (fun '(method, p) =>
            method pc w =
            match files w !! p with
            | Some Dir => (w, Ok tt)
            | Some (File _) => (w, Raise FileExistsError)
            | None => (set_node p Dir w, Ok tt)
            end)
    [ (PathCreator.create_results_dir, PathGenerator.results_path pg);
      (PathCreator.create_tensorboard_dir, PathGenerator.tensorboard_path pg);
      (PathCreator.create_figures_dir, PathGenerator.figures_path pg) ].
Proof.
  intros pg Hne Hend Hroot.
  repeat (constructor;
          [ apply (os_makedirs_child (PathGenerator.root pg) _ w Hne Hend);
            [reflexivity | reflexivity | exact Hroot] | ]).
  constructor.
Qed.

Lemma path_creator_makes_directories_witness :
  let pc := {| PathCreator.path_generator := PathGenerator.new demo_path |} in
  PathCreator.create_results_dir pc taken_world
    = (set_node (demo_path +:+ "/results") Dir taken_world, Ok tt) /\
  PathCreator.create_results_dir pc populated_world = (populated_world, Ok tt).
Proof.
  cbv zeta. split.
  - pose proof (path_creator_makes_directories
                  {| PathCreator.path_generator := PathGenerator.new demo_path |}
                  taken_world eq_refl eq_refl eq_refl) as Hall.
    apply Forall_inv in Hall. exact Hall.
  - pose proof (path_creator_makes_directories
                  {| PathCreator.path_generator := PathGenerator.new demo_path |}
                  populated_world eq_refl eq_refl eq_refl) as Hall.
    apply Forall_inv in Hall. exact Hall.
Defined.

(** X18: under an existing root directory, [create_config_file] stores the
    YAML dump of the configuration in [config.yaml], replacing a file that
    is there, and what is then read from that path loads back to the
    configuration when the YAML functions of the host round-trip it. *)
Theorem path_creator_writes_config
    (h : host) (pc : PathCreator.t) (config : pydict) (w : world) :
  let pg := PathCreator.path_generator pc in
  String.eqb (PathGenerator.root pg) "" = false ->
  endswith (PathGenerator.root pg) "/" = false ->
  files w !! PathGenerator.root pg = Some Dir ->
  files w !! PathGenerator.config_path pg <> Some Dir ->
  yaml_safe_load h (yaml_dump h config) = Ok (PDict config) ->
  let w' := set_node (PathGenerator.config_path pg) (File (yaml_dump h config)) w in
  PathCreator.create_config_file h pc config w = (w', Ok tt) /\
  result_of (data <- read_file (PathGenerator.config_path pg) ;;
             lift (yaml_safe_load h data)) w' = Ok (PDict config).
Proof.
  intros pg Hne Hend Hroot Hnodir Hcodec w'. split.
  - unfold PathCreator.create_config_file, write_file. fold pg.
    destruct (files w !! PathGenerator.config_path pg) as [[|old]|] eqn:Hc.
    + exfalso. apply Hnodir. reflexivity.
    + reflexivity.
    + unfold PathGenerator.config_path, PathGenerator._concat_root_and_suffix in *.
      rewrite (parent_error_child _ "config.yaml" _ Hne Hend eq_refl), Hroot.
      reflexivity.
  - unfold result_of, bind, read_file. subst w'. cbn [set_node files].
    rewrite lookup_insert_eq. exact Hcodec.
Qed.

Lemma path_creator_writes_config_witness :
  let pc := {| PathCreator.path_generator := PathGenerator.new demo_path |} in
  PathCreator.create_config_file demo_host pc demo_config taken_world
  = (set_node (demo_path +:+ "/config.yaml") (File demo_yaml) taken_world, Ok tt).
Proof.
  cbv zeta.
  apply (path_creator_writes_config demo_host
           {| PathCreator.path_generator := PathGenerator.new demo_path |}
           demo_config taken_world eq_refl eq_refl eq_refl).
  - vm_compute. discriminate.
  - reflexivity.
Defined.

(** ** The resolver, continued *)

(** X19: an import that fails with anything but [ModuleNotFoundError] is not
    handled: the error of the import comes out of the resolver as it is,
    and nothing is logged. *)
Theorem resolver_propagates_import_errors
    (h : host) (p mt ct cn : string) (w : world) (e : exn) :
  e <> ModuleNotFoundError ->
  (import_module h (p +:+ ".models." +:+ lower mt) = Raise e ->
   get_model_component_class h p mt ct cn w = (w, Raise e)) /\
  (forall m0,
     import_module h (p +:+ ".models." +:+ lower mt) = Ok m0 ->
     import_module h (p +:+ ".models." +:+ lower mt +:+ "." +:+ lower ct) = Raise e ->
     get_model_component_class h p mt ct cn w = (w, Raise e)).
Proof.
  intros He. split.
  - intros H0. unfold get_model_component_class, bind, try_except, lift.
    rewrite H0. destruct e; try reflexivity. contradiction.
  - intros m0 H0 H1. unfold get_model_component_class, bind, try_except, lift.
    rewrite H0, H1. destruct e; try reflexivity. contradiction.
Qed.

Lemma resolver_propagates_import_errors_witness :
  get_model_component_class lab_host "lab" "Broken" "model" "broken" demo_world
  = (demo_world, Raise ImportError).
Proof.
  apply (proj1 (resolver_propagates_import_errors lab_host "lab" "Broken" "model"
                  "broken" demo_world ImportError ltac:(discriminate))).
  reflexivity.
Defined.

(** The whole run of the resolver once both imports have succeeded. *)
Lemma resolve_imported_run (h : host) (p mt ct cn : string) (w : world)
    (m0 m : pymodule) :
  import_module h (p +:+ ".models." +:+ lower mt) = Ok m0 ->
  import_module h (p +:+ ".models." +:+ lower mt +:+ "." +:+ lower ct) = Ok m ->
  get_model_component_class h p mt ct cn w =
  if str_in (lower cn) (map (fun nm => lower (fst nm)) (mod_members m))
  then match list_index (lower cn) (map (fun nm => lower (fst nm)) (mod_members m)) with
       | Ok i =>
           match list_getitem (mod_members m) i with
           | Ok entry =>
               match module_getattr (mod_members m) (fst entry) with
               | Ok c =>
                   if bool_decide (inspect_getmodule c = Some (mod_name m))
                   then (w, Ok c)
                   else ({| files := files w;
                            log := log w ++ [WarnExternComponent (lower cn)] |}, Ok c)
               | Raise e => (w, Raise e)
               end
           | Raise e => (w, Raise e)
           end
       | Raise e => (w, Raise e)
       end
  else ({| files := files w; log := log w ++ [ErrNoSuchComponent (lower cn)] |},
        Raise AttributeError).
Proof.
  intros H0 H1.
  unfold get_model_component_class, bind, try_except, lift.
  rewrite H0, H1.
  destruct (str_in _ _); cbn [negb]; [|reflexivity].
  destruct (list_index _ _) as [i|e]; [|reflexivity].
  destruct (list_getitem _ i) as [entry|e]; [|reflexivity].
  destruct (module_getattr _ _) as [c|e]; [|reflexivity].
  destruct (bool_decide _); reflexivity.
Qed.

(** X20: the diagnostics of a successful resolution: the component module
    was imported, and the resolver logged nothing when the component is
    declared in that module and exactly one warning, naming the lower-cased
    component, when it was imported into it from elsewhere. *)
Theorem resolver_diagnostics (h : host) (p mt ct cn : string) (w w' : world)
    (c : pyobj) :
  get_model_component_class h p mt ct cn w = (w', Ok c) ->
  exists m,
    import_module h (p +:+ ".models." +:+ lower mt +:+ "." +:+ lower ct) = Ok m /\
    log w' = log w ++
             (if bool_decide (inspect_getmodule c = Some (mod_name m))
              then [] else [WarnExternComponent (lower cn)]).
Proof.
  destruct (import_module h (p +:+ ".models." +:+ lower mt)) as [m0|e0] eqn:H0.
  2:{ unfold get_model_component_class, bind, try_except, lift.
      rewrite H0. destruct e0; discriminate. }
  destruct (import_module h (p +:+ ".models." +:+ lower mt +:+ "." +:+ lower ct))
    as [m|e1] eqn:H1.
  2:{ unfold get_model_component_class, bind, try_except, lift.
      rewrite H0, H1. destruct e1; discriminate. }
  rewrite (resolve_imported_run h p mt ct cn w m0 m H0 H1).
  destruct (str_in _ _); [|discriminate].
  destruct (list_index _ _) as [i|e]; [|discriminate].
  destruct (list_getitem _ i) as [entry|e]; [|discriminate].
  destruct (module_getattr _ _) as [c0|e]; [|discriminate].
  destruct (bool_decide (inspect_getmodule c0 = Some (mod_name m))) eqn:Hhome.
  - intros Hrun. injection Hrun as <- <-.
    exists m. split; [reflexivity|]. rewrite Hhome, app_nil_r. reflexivity.
  - intros Hrun. injection Hrun as <- <-.
    exists m. split; [reflexivity|]. rewrite Hhome. reflexivity.
Qed.

Lemma resolver_diagnostics_witness :
  exists m,
    import_module lab_host ("lab" +:+ ".models." +:+ lower "plain" +:+ "."
                            +:+ lower "model") = Ok m /\
    log (world_after (get_model_component_class lab_host "lab" "plain" "model" "PLAIN")
           demo_world)
    = log demo_world ++
      (if bool_decide (inspect_getmodule cls_Plain = Some (mod_name m))
       then [] else [WarnExternComponent (lower "PLAIN")]).
Proof.
  apply (resolver_diagnostics lab_host "lab" "plain" "model" "PLAIN" demo_world
           (world_after (get_model_component_class lab_host "lab" "plain" "model"
                           "PLAIN") demo_world) cls_Plain).
  reflexivity.
Defined.

(** ** The base-class walk of [get_model_class] *)

Lemma inherits_iff (q : string) (hm : option string) (bases : list pyobj) :
  inherits_nn_Module (PyClass q hm bases) <->
  exists b, In b bases /\ (is_nn_Module b = true \/ inherits_nn_Module b).
Proof.
  split.
  - intros H. inversion H; subst; eauto.
  - intros (b & Hin & [Hb|Hb]).
    + exact (inherits_direct q hm bases b Hin Hb).
    + exact (inherits_through q hm bases b Hin Hb).
Qed.

(** On a tree of classes the walk returns, and it answers [True] exactly
    when [torch.nn.Module] is a proper ancestor. *)
Lemma search_for_pytorch_spec (c : pyobj) :
  class_tree c ->
  exists b : bool, search_for_pytorch c = Ok b /\ (b = true <-> inherits_nn_Module c).
Proof.
  induction c as [q hm bases IH|ident hm] using pyobj_bases_ind; intros Htree.
  2:{ inversion Htree. }
  inversion Htree as [q' hm' bases' Hbases]; subst.
  cbn [search_for_pytorch].
  assert (Hover :
    exists b : bool,
      (fix over (bs : list pyobj) : result bool :=
         match bs with
         | [] => Ok false
         | base :: bs' =>
             if is_nn_Module base then Ok true
             else match search_for_pytorch base with
                  | Ok true => Ok true
                  | Ok false => over bs'
                  | Raise e => Raise e
                  end
         end) bases = Ok b /\
      (b = true <->
       exists x, In x bases /\ (is_nn_Module x = true \/ inherits_nn_Module x))).
  { clear Htree. induction bases as [|x bases IHbases].
    - exists false. split; [reflexivity|]. split; [discriminate|].
      intros (y & [] & _).
    - apply Forall_cons_1 in IH as [IHx IHrest].
      apply Forall_cons_1 in Hbases as [Hx Hrest].
      destruct (is_nn_Module x) eqn:Hnn.
      + exists true. split; [reflexivity|]. split; [|reflexivity].
        intros _. exists x. split; [left; reflexivity | left; exact Hnn].
      + destruct (IHx Hx) as (bx & Hsx & Hbx). rewrite Hsx.
        destruct bx.
        * exists true. split; [reflexivity|]. split; [|reflexivity].
          intros _. exists x. split; [left; reflexivity|].
          right. apply Hbx. reflexivity.
        * destruct (IHbases IHrest Hrest) as (b & Hb & Hiff).
          exists b. split; [exact Hb|]. rewrite Hiff. split.
          -- intros (y & Hy & Hprop). exists y. split; [right; exact Hy | exact Hprop].
          -- intros (y & [<-|Hy] & Hprop).
             ++ exfalso. destruct Hprop as [Hprop|Hprop].
                ** rewrite Hnn in Hprop. discriminate Hprop.
                ** apply Hbx in Hprop. discriminate Hprop.
             ++ exists y. split; assumption. }
  destruct Hover as (b & Hb & Hiff). exists b. split; [exact Hb|].
  rewrite Hiff. symmetry. apply inherits_iff.
Qed.

(** X21: what [get_model_class] makes of the resolved member.  A class with
    [torch.nn.Module] among its proper ancestors is returned silently; a
    class without it is returned all the same, after one warning that names
    the model type as it was passed; a member that is not a class makes the
    call raise [AttributeError], although the component was found. *)
Theorem get_model_class_outcomes
    (h : host) (p mt : string) (w w1 : world) (c : pyobj) :
  get_model_component_class h p mt "model" mt w = (w1, Ok c) ->
  (class_tree c -> inherits_nn_Module c ->
   get_model_class h p mt w = (w1, Ok c)) /\
  (class_tree c -> ~ inherits_nn_Module c ->
   get_model_class h p mt w =
   ({| files := files w1; log := log w1 ++ [WarnNotPytorchModule mt] |}, Ok c)) /\
  (forall ident hm, c = PyValue ident hm ->
   get_model_class h p mt w = (w1, Raise AttributeError)).
Proof.
  intros Hrun.
  assert (Hgen : get_model_class h p mt w =
                 match search_for_pytorch c with
                 | Ok true => (w1, Ok c)
                 | Ok false =>
                     ({| files := files w1;
                         log := log w1 ++ [WarnNotPytorchModule mt] |}, Ok c)
                 | Raise e => (w1, Raise e)
                 end).
  { unfold get_model_class, bind, lift. rewrite Hrun.
    destruct (search_for_pytorch c) as [[]|e]; reflexivity. }
  rewrite Hgen. split; [|split].
  - intros Htree Hinh.
    destruct (search_for_pytorch_spec c Htree) as (b & Hb & Hiff).
    rewrite Hb. apply Hiff in Hinh. subst b. reflexivity.
  - intros Htree Hno.
    destruct (search_for_pytorch_spec c Htree) as (b & Hb & Hiff).
    rewrite Hb.
    destruct b; [exfalso; apply Hno, Hiff; reflexivity | reflexivity].
  - intros ident hm ->. reflexivity.
Qed.

Lemma get_model_class_outcomes_witness :
  get_model_class demo_host "demo" "MLP" demo_world = (demo_world, Ok cls_MLP) /\
  get_model_class lab_host "lab" "Plain" demo_world
  = ({| files := files demo_world;
        log := [WarnExternComponent "plain"; WarnNotPytorchModule "Plain"] |},
     Ok cls_Plain) /\
  get_model_class lab_host "lab" "net" demo_world = (demo_world, Raise AttributeError).
Proof.
  split; [|split].
  - apply (proj1 (get_model_class_outcomes demo_host "demo" "MLP" demo_world demo_world
                    cls_MLP eq_refl)).
    + repeat constructor.
    + apply (inherits_direct _ _ _ cls_Module); [left; reflexivity | reflexivity].
  - apply (proj1 (proj2 (get_model_class_outcomes lab_host "lab" "Plain" demo_world
                           {| files := files demo_world;
                              log := [WarnExternComponent "plain"] |}
                           cls_Plain eq_refl))).
    + repeat constructor.
    + intros Hinh. inversion Hinh as [q hm bases b Hin Hb|q hm bases b Hin Hb]; subst.
      * destruct Hin as [<-|[]]. discriminate Hb.
      * destruct Hin as [<-|[]]. inversion Hb as [? ? ? ? Hin'|? ? ? ? Hin'];
          destruct Hin'.
  - apply (proj2 (proj2 (get_model_class_outcomes lab_host "lab" "net" demo_world
                           demo_world fn_net eq_refl))
             "function net" (Some "lab.models.net.model")).
    reflexivity.
Defined.

(** ** The derived lookups *)

Lemma lower_app (a b : string) : lower (a +:+ b) = lower a +:+ lower b.
Proof.
  induction a as [|x a IH]; [reflexivity|].
  change (String x a +:+ b) with (String x (a +:+ b)).
  cbn [lower]. rewrite IH. reflexivity.
Qed.

(** X22: the three derived lookups are case-insensitive in an ASCII model
    type: for ASCII model types that agree after lower-casing, the trainer
    lookups are the same computation, so are the parameter lookups, and the
    model lookups return the same result.  (Outside ASCII [str.lower]
    depends on the neighbouring characters, so lower-casing a model type
    and then appending the suffix need not give the lower-cased component
    name.) *)
Theorem derived_lookups_case_insensitive (h : host) (p mt1 mt2 : string) :
  is_ascii mt1 = true ->
  is_ascii mt2 = true ->
  lower mt1 = lower mt2 ->
  get_model_trainer h p mt1 = get_model_trainer h p mt2 /\
  get_model_parameters h p mt1 = get_model_parameters h p mt2 /\
  forall w, result_of (get_model_class h p mt1) w = result_of (get_model_class h p mt2) w.
Proof.
  intros _ _ Hmt. split; [|split].
  - unfold get_model_trainer, get_model_component_class.
    rewrite !lower_app, Hmt. reflexivity.
  - unfold get_model_parameters, get_model_component_class.
    rewrite !lower_app, Hmt. reflexivity.
  - intros w.
    assert (Heq : get_model_component_class h p mt1 "model" mt1
                  = get_model_component_class h p mt2 "model" mt2).
    { unfold get_model_component_class. rewrite Hmt. reflexivity. }
    unfold get_model_class, result_of. unfold bind at 1 4. rewrite Heq.
    destruct (get_model_component_class h p mt2 "model" mt2 w) as [w1 [c|e]];
      [|reflexivity].
    unfold bind, lift. destruct (search_for_pytorch c) as [[]|e]; reflexivity.
Qed.

Lemma derived_lookups_case_insensitive_witness :
  get_model_trainer demo_host "demo" "MLP" = get_model_trainer demo_host "demo" "mlp" /\
  result_of (get_model_trainer demo_host "demo" "MLP") demo_world = Ok cls_MLPTrainer /\
  result_of (get_model_parameters demo_host "demo" "Mlp") demo_world
    = Ok cls_MLPParameters.
Proof.
  split; [|split; reflexivity].
  apply (derived_lookups_case_insensitive demo_host "demo" "MLP" "mlp");
    reflexivity.
Defined.

(** X23: completeness of the resolver: when both modules import and some
    member of the component module has the component name after
    lower-casing, the resolver returns a component. *)
Theorem resolver_finds_member (h : host) (p mt ct cn : string) (w : world)
    (m0 m : pymodule) (name : string) (o : pyobj) :
  import_module h (p +:+ ".models." +:+ lower mt) = Ok m0 ->
  import_module h (p +:+ ".models." +:+ lower mt +:+ "." +:+ lower ct) = Ok m ->
  In (name, o) (mod_members m) ->
  lower name = lower cn ->
  exists c name',
    result_of (get_model_component_class h p mt ct cn) w = Ok c /\
    In (name', c) (mod_members m) /\ lower name' = lower cn.
Proof.
  intros H0 H1 Hmem Hname.
  pose proof (resolve_member_found h p mt ct cn w m0 m name o H0 H1 Hmem Hname) as Hok.
  destruct (result_of (get_model_component_class h p mt ct cn) w) as [c|e] eqn:Hr;
    [|discriminate Hok].
  destruct (resolve_ok_inversion h p mt ct cn w c Hr)
    as (m' & i & name' & Himp & Hnth & Hlow & _ & _).
  rewrite H1 in Himp. injection Himp as <-.
  exists c, name'. split; [reflexivity|]. split; [|exact Hlow].
  apply (nth_error_In _ i). exact Hnth.
Qed.

Lemma resolver_finds_member_witness :
  exists c name',
    result_of (get_model_component_class demo_host "demo" "MLP" "Config"
                 "mlpPARAMETERS") demo_world = Ok c /\
    In (name', c) [ ("MLPParameters", cls_MLPParameters) ] /\
    lower name' = lower "mlpPARAMETERS".
Proof.
  apply (resolver_finds_member demo_host "demo" "MLP" "Config" "mlpPARAMETERS"
           demo_world
           {| mod_name := "demo.models.mlp"; mod_members := [] |}
           {| mod_name := "demo.models.mlp.config";
              mod_members := [ ("MLPParameters", cls_MLPParameters) ] |}
           "MLPParameters" cls_MLPParameters).
  - reflexivity.
  - reflexivity.
  - left. reflexivity.
  - reflexivity.
Defined.

(** ** color_logging.py *)

Import color_logging.

(** X24: [CustomFormatter.format] knows the five standard levels only: a
    record of level DEBUG or INFO is formatted with the plain message
    format, one of level WARNING, ERROR or CRITICAL with that format between
    a colour code and the reset code, and a record of any other level makes
    it raise [KeyError]. *)
Theorem CustomFormatter_format_levels (lib : logging_lib) (record : LogRecord) :
  (In (levelno record) [DEBUG; INFO] ->
   CustomFormatter.format lib record
   = Ok (Formatter_format lib CustomFormatter.message record)) /\
  (In (levelno record) [WARNING; ERROR; CRITICAL] ->
   exists colour,
     In colour [Fore_YELLOW lib; Fore_LIGHTRED_EX lib; Fore_RED lib] /\
     CustomFormatter.format lib record
     = Ok (Formatter_format lib
             ((colour +:+ CustomFormatter.message) +:+ Style_RESET_ALL lib) record)) /\
  (~ In (levelno record) [DEBUG; INFO; WARNING; ERROR; CRITICAL] ->
   CustomFormatter.format lib record = Raise KeyError).
Proof.
  unfold CustomFormatter.format, CustomFormatter.COLORED_FORMAT.
  split; [|split].
  - intros [<-|[<-|[]]]; reflexivity.
  - intros [<-|[<-|[<-|[]]]].
    + exists (Fore_YELLOW lib). split; [cbn; auto | reflexivity].
    + exists (Fore_LIGHTRED_EX lib). split; [cbn; auto | reflexivity].
    + exists (Fore_RED lib). split; [cbn; auto | reflexivity].
  - intros Hnot. cbn [CustomFormatter.level_getitem].
    repeat (match goal with |- context [Z.eqb ?k (levelno record)] =>
              let H := fresh "Hk" in
              destruct (Z.eqb k (levelno record)) eqn:H;
              [ exfalso; apply Hnot; apply Z.eqb_eq in H; rewrite <- H; cbn; tauto | ]
            end).
    reflexivity.
Qed.

Lemma CustomFormatter_format_levels_witness :
  CustomFormatter.format demo_logging_lib demo_record = Raise KeyError.
Proof.
  apply (proj2 (proj2 (CustomFormatter_format_levels demo_logging_lib demo_record))).
  cbn. intros [H|[H|[H|[H|[H|[]]]]]]; discriminate H.
Defined.

Lemma get_logger_step (name : string) (level : Z) (loggers : gmap string Logger) :
  getLogger name (fst (get_logger name level loggers)) =
  {| logger_level := level;
     handlers := handlers (getLogger name loggers) ++ [ {| handler_level := level |} ] |}.
Proof.
  unfold get_logger, getLogger at 1. cbn [fst].
  rewrite lookup_insert_eq. reflexivity.
Qed.

(** X25: every call of [get_logger] adds a handler to the logger of the
    name: after [n] calls for one name the logger has [n] more handlers than
    before (so it writes each record that many more times), all of them at
    the requested level, and the logger itself is at that level after a
    call.  The logger returned is the registered one.  Reading the property
    [logger] of a [LoggerMixin] is such a call, at level DEBUG. *)
Theorem get_logger_accumulates_handlers
    (name : string) (level : Z) (loggers : gmap string Logger) (n : nat) :
  let call := fun ls => fst (get_logger name level ls) in
  handlers (getLogger name (Nat.iter n call loggers))
    = handlers (getLogger name loggers) ++ repeat {| handler_level := level |} n /\
  logger_level (getLogger name (Nat.iter (S n) call loggers)) = level /\
  snd (get_logger name level loggers) = getLogger name (call loggers) /\
  handlers (getLogger name
              (Nat.iter n (fun ls => fst (LoggerMixin_logger name ls)) loggers))
    = handlers (getLogger name loggers) ++ repeat {| handler_level := DEBUG |} n.
Proof.
  intros call.
  assert (Hcount : forall lvl k,
             handlers (getLogger name
                         (Nat.iter k (fun ls => fst (get_logger name lvl ls)) loggers))
             = handlers (getLogger name loggers)
               ++ repeat {| handler_level := lvl |} k).
  { intros lvl. induction k as [|k IH].
    - cbn. rewrite app_nil_r. reflexivity.
    - change (Nat.iter (S k) (fun ls => fst (get_logger name lvl ls)) loggers)
        with (fst (get_logger name lvl
                     (Nat.iter k (fun ls => fst (get_logger name lvl ls)) loggers))).
      rewrite get_logger_step. cbn [handlers].
      rewrite IH, <- app_assoc. f_equal.
      change [ {| handler_level := lvl |} ]
        with (repeat {| handler_level := lvl |} 1).
      rewrite <- repeat_app. f_equal. lia. }
  split; [apply Hcount|]. split; [|split].
  - change (Nat.iter (S n) call loggers) with (call (Nat.iter n call loggers)).
    unfold call at 1. rewrite get_logger_step. reflexivity.
  - unfold call. rewrite get_logger_step. reflexivity.
  - apply (Hcount DEBUG).
Qed.
